(** * batch-pddl-generator: the generate / collect pipeline

    A shallow embedding of [src/generate-instances.py] and
    [src/collect-instances.py].

    - Python values that travel through [properties.json] are the
      inductive [pyval]; a Python [float] is [pyfloat]: a finite value
      (a rational, every finite double is one), an infinity or NaN.  The
      scripts only compare and negate floats, which is exact on doubles.
    - A Python [dict] with string keys whose iteration order cannot be
      observed is a [gmap]; a [set] is a [gset]; a [defaultdict] creates
      the entry it is asked for.
    - Exceptions are the type [exn]; code that touches the file system is
      a state-and-exception computation [io]: the files written before an
      exception stay written.
    - Calls into modules of the repository that are not part of the two
      scripts ([utils], [runner], [domains]), into [hashlib] and into the
      [float] constructor are section variables. *)

From Stdlib Require Import QArith ZArith String Ascii OrdersEx.
From stdpp Require Import gmap strings list fin_maps sorting pretty.

Set Warnings "-register-all".
Close Scope Q_scope.
Open Scope Z_scope.
Open Scope string_scope.

(* ===================================================================== *)
(** * Python runtime: exceptions, floats, values *)
(* ===================================================================== *)

Module Py.

Inductive exn :=
| FileNotFoundError
| TypeError
| ValueError
| AttributeError
| IllegalConfiguration
| CalledProcessError
| OtherError (name : string).

Inductive result (A : Type) :=
| Ok (a : A)
| Raise (e : exn).
Arguments Ok {A} a.
Arguments Raise {A} e.

Definition result_bind {A B} (r : result A) (k : A → result B) : result B :=
  match r with
  | Ok a => k a
  | Raise e => Raise e
  end.

(** A computation over a store [S] that may raise; the store survives. *)
Definition io (S A : Type) : Type := S → result A * S.

Definition ret {S A} (a : A) : io S A := λ s, (Ok a, s).
Definition raise {S A} (e : exn) : io S A := λ s, (Raise e, s).
Definition lift {S A} (r : result A) : io S A := λ s, (r, s).
Definition bind {S A B} (c : io S A) (k : A → io S B) : io S B :=
  λ s, match c s with
       | (Ok a, s') => k a s'
       | (Raise e, s') => (Raise e, s')
       end.

(** ** Floats *)

Inductive pyfloat :=
| Fin (q : Q)
| PosInf
| NegInf
| NaN.

Definition float_lt (a b : pyfloat) : bool :=
  match a, b with
  | NaN, _ | _, NaN => false
  | Fin x, Fin y => match Qcompare x y with Lt => true | _ => false end
  | Fin _, PosInf => true
  | Fin _, NegInf => false
  | PosInf, _ => false
  | NegInf, NegInf => false
  | NegInf, _ => true
  end.

Definition float_le (a b : pyfloat) : bool :=
  match a, b with
  | NaN, _ | _, NaN => false
  | Fin x, Fin y => match Qcompare x y with Gt => false | _ => true end
  | Fin _, PosInf => true
  | Fin _, NegInf => false
  | PosInf, PosInf => true
  | PosInf, _ => false
  | NegInf, _ => true
  end.

Definition float_gt (a b : pyfloat) : bool := float_lt b a.
Definition float_ge (a b : pyfloat) : bool := float_le b a.

Definition float_ne (a b : pyfloat) : bool :=
  match a, b with
  | NaN, _ | _, NaN => true
  | Fin x, Fin y => match Qcompare x y with Eq => false | _ => true end
  | PosInf, PosInf | NegInf, NegInf => false
  | _, _ => true
  end.

Definition float_neg (a : pyfloat) : pyfloat :=
  match a with
  | Fin q => Fin (Qopp q)
  | PosInf => NegInf
  | NegInf => PosInf
  | NaN => NaN
  end.

(** [max(a, b)] with two arguments: the first one unless the second is
    strictly greater. *)
Definition py_max (a b : pyfloat) : pyfloat :=
  if float_gt b a then b else a.

(** The double nearest to 0.1: 3602879701896397 / 2^55. *)
Definition float_0_1 : pyfloat :=
  Fin (Qmake 3602879701896397 36028797018963968).

(** ** Values *)

Inductive pyval :=
| PNone
| PBool (b : bool)
| PInt (z : Z)
| PFloat (f : pyfloat)
| PStr (s : string)
| PDict (items : list (string * pyval)).

(** [bool], [int] and [float] compare with each other by value. *)
Definition as_number (v : pyval) : option pyfloat :=
  match v with
  | PBool b => Some (Fin (inject_Z (Z.b2z b)))
  | PInt z => Some (Fin (inject_Z z))
  | PFloat f => Some f
  | _ => None
  end.

(** [a > b]; [None] is the [TypeError] of unorderable operands. *)
Definition py_gt (a b : pyval) : option bool :=
  match as_number a, as_number b with
  | Some x, Some y => Some (float_gt x y)
  | _, _ =>
      match a, b with
      | PStr s, PStr t => Some (String.ltb t s)
      | _, _ => None
      end
  end.

(** [a <= b]. *)
Definition py_le (a b : pyval) : option bool :=
  match as_number a, as_number b with
  | Some x, Some y => Some (float_le x y)
  | _, _ =>
      match a, b with
      | PStr s, PStr t => Some (String.leb s t)
      | _, _ => None
      end
  end.

(** The line feed that [print] ends a line with. *)
Definition newline : string := String (ascii_of_nat 10) EmptyString.

(** [str(i)] of an [int]. *)
Definition str_int (z : Z) : string := pretty z.

(** [p / name] of [pathlib]. *)
Definition path_join (p name : string) : string := p +:+ "/" +:+ name.

End Py.

Export Py.

Declare Scope io_scope.
Delimit Scope io_scope with io.
Notation "'do' x <- c ; k" := (bind c (λ x, k))
  (at level 10, x name, c at level 100, k at level 200) : io_scope.
Notation "'do' ' pat <- c ; k" := (bind c (λ x, match x with pat => k end))
  (at level 10, pat pattern, c at level 100, k at level 200) : io_scope.
Notation "'exec' c ; k" := (bind c (λ _, k))
  (at level 10, c at level 100, k at level 200) : io_scope.
Infix "//" := path_join (at level 40, left associativity) : string_scope.

(* ===================================================================== *)
(** * collect-instances.py *)
(* ===================================================================== *)

Module Collect.

(** The record [json.load] returns for a [properties.json], in the format
    [store_results] writes: the keys of section 6 of the specification.
    [parameters] is iterated only after sorting or key by key, so its
    order is not observable. *)
Record Props := {
  domain : string;
  parameters : gmap string pyval;
  seed : Z;
  planner_exitcode : Z;
  runtime : pyval;
}.

(** What the loop reads below one directory matched by the glob
    [runs-*-*/*/smac-*/run_*/plan/*/*/]; [None] is a missing file.  A
    [properties.json] that is present holds a record of the format above. *)
Record PlanDir := {
  properties_json : option Props;
  problem_pddl : option string;
  domain_pddl : option string;
}.

(** The destination tree: the directories made and the text of each file,
    by path. *)
Record DestFS := {
  dirs : gset string;
  files : gmap string string;
}.

(** The destination after the directories [made] and the files [written]
    are put over it; a file written replaces the one at its path. *)
Definition overlay (made : gset string) (written : gmap string string)
    (fs : DestFS) : DestFS :=
  {| dirs := made ∪ dirs fs; files := written ∪ files fs |}.

(** A computation whose result and writes do not depend on what the
    destination holds. *)
Definition writes_only {A} (c : io DestFS A) : Prop :=
  ∃ outcome made written, ∀ fs, c fs = (outcome, overlay made written fs).

(** The three tables of [main]. *)
Record Tables := {
  max_values : gmap string (gmap string pyval);
  seen_task_hashes : gmap string (gset string);
  seen_runtimes : gmap string (gmap Z Z);
}.

Definition empty_tables : Tables :=
  {| max_values := ∅; seen_task_hashes := ∅; seen_runtimes := ∅ |}.

Definition RUNTIME_BOUNDS : list Z :=
  [1; 10; 20; 50; 100; 200; 500; 1000; 2000; 5000; 10000].

(** [d[key]] on a [defaultdict]: a missing key is first bound to the
    default.  Returns the value and the dictionary after the access. *)
Definition defaultdict_get {V} `{Empty V} (d : gmap string V) (key : string)
  : V * gmap string V :=
  match d !! key with
  | Some v => (v, d)
  | None => (∅, <[key := ∅]> d)
  end.

(** What a [defaultdict] holds for a key, bound or not. *)
Definition entry {V} `{Empty V} (d : gmap string V) (key : string) : V :=
  default ∅ (d !! key).

(** Destination writes.  [mkdir(parents=True, exist_ok=True)], the copy of
    a file's text and [open(path, "w")] followed by one [print]. *)
Definition mkdir (p : string) : io DestFS unit :=
  λ fs, (Ok tt, {| dirs := {[p]} ∪ dirs fs; files := files fs |}).

Definition write_text (p content : string) : io DestFS unit :=
  λ fs, (Ok tt, {| dirs := dirs fs; files := <[p := content]> (files fs) |}).

Definition copy2 (src : option string) (dst : string) : io DestFS unit :=
  match src with
  | Some content => write_text dst content
  | None => raise FileNotFoundError
  end.

(** [sorted(d)] on a dictionary with string keys: its keys, ascending. *)
Definition str_le (s t : string) : Prop := String.leb s t = true.

#[global] Instance str_le_dec s t : Decision (str_le s t).
Proof. unfold str_le. apply _. Defined.

Definition sorted_keys {V} (d : gmap string V) : list string :=
  merge_sort str_le (map_to_list d).*1.

Section WithLibraries.

(** [hashlib.md5(s.encode("utf-8")).hexdigest()]. *)
Variable md5_hexdigest : string → string.

(** [utils.join_parameters], which is not part of the two scripts. *)
Variable join_parameters : gmap string pyval → string.

Definition _compute_md5_hash (s : string) : string := md5_hexdigest s.

Definition hash_task (plan_dir : PlanDir) : result string :=
  match problem_pddl plan_dir with
  | Some content => Ok (_compute_md5_hash content)
  | None => Raise FileNotFoundError
  end.

(** One iteration of the loop of [record_max_values]. *)
Definition record_max_value (max_domain_values : gmap string pyval)
    (item : string * pyval) : result (gmap string pyval) :=
  let '(key, value) := item in
  match max_domain_values !! key with
  | None => Ok (<[key := value]> max_domain_values)
  | Some stored =>
      match py_gt value stored with
      | Some true => Ok (<[key := value]> max_domain_values)
      | Some false => Ok max_domain_values
      | None => Raise TypeError
      end
  end.

Fixpoint record_max_items (items : list (string * pyval))
    (max_domain_values : gmap string pyval) : result (gmap string pyval) :=
  match items with
  | [] => Ok max_domain_values
  | item :: rest =>
      result_bind (record_max_value max_domain_values item)
                  (record_max_items rest)
  end.

Definition record_max_values (parameters : gmap string pyval)
    (max_domain_values : gmap string pyval) : result (gmap string pyval) :=
  record_max_items (map_to_list parameters) max_domain_values.

(** The loop of [record_runtime] over the bounds still to try. *)
Fixpoint record_runtime_from (bounds : list Z) (domain_runtimes : gmap Z Z)
    (runtime : pyval) : result (gmap Z Z) :=
  match bounds with
  | [] => Ok domain_runtimes
  | bound :: rest =>
      match py_le runtime (PInt bound) with
      | None => Raise TypeError
      | Some true =>
          let domain_runtimes1 :=
            match domain_runtimes !! bound with
            | None => <[bound := 0]> domain_runtimes
            | Some _ => domain_runtimes
            end in
          Ok (<[bound := (domain_runtimes1 !!! bound) + 1]> domain_runtimes1)
      | Some false => record_runtime_from rest domain_runtimes runtime
      end
  end.

Definition record_runtime (domain_runtimes : gmap Z Z) (runtime : pyval)
  : result (gmap Z Z) :=
  record_runtime_from RUNTIME_BOUNDS domain_runtimes runtime.

(** The file name of a retained instance and the text of the README. *)
Definition problem_name_of (props : Props) : string :=
  "p-" +:+ join_parameters (parameters props) +:+ "-"
       +:+ str_int (seed props) +:+ ".pddl".

Definition readme_text (props : Props) : string :=
  "Parameter order: "
    +:+ String.concat ", " (sorted_keys (parameters props))
    +:+ newline.

(** The body of the loop of [main] for one plan directory (lines 83 to
    119); the [print] calls are left out. *)
Definition main_body (destdir : string) (tables : Tables)
    (plan_dir : PlanDir) : io DestFS Tables :=
  match properties_json plan_dir with
  | None => ret tables
  | Some props =>
      if negb (planner_exitcode props =? 0)%Z then ret tables
      else
        let domain := domain props in
        let runtime := runtime props in
        (do hash <- lift (hash_task plan_dir);
         let '(seen, hashes) :=
           defaultdict_get (seen_task_hashes tables) domain in
         if decide (hash ∈ seen) then
           ret {| max_values := max_values tables;
                  seen_task_hashes := hashes;
                  seen_runtimes := seen_runtimes tables |}
         else
           let hashes := <[domain := seen ∪ {[hash]}]> hashes in
           let values :=
             <["planner_runtime" := runtime]> (parameters props) in
           let '(max_domain_values, maxima) :=
             defaultdict_get (max_values tables) domain in
           do max_domain_values <-
             lift (record_max_values values max_domain_values);
           let maxima := <[domain := max_domain_values]> maxima in
           let '(domain_runtimes, runtimes) :=
             defaultdict_get (seen_runtimes tables) domain in
           do domain_runtimes <-
             lift (record_runtime domain_runtimes runtime);
           let runtimes := <[domain := domain_runtimes]> runtimes in
           let problem_name := problem_name_of props in
           let target_dir := destdir // domain in
           exec mkdir target_dir;
           exec copy2 (problem_pddl plan_dir) (target_dir // problem_name);
           exec copy2 (domain_pddl plan_dir) (target_dir // "domain.pddl");
           exec write_text (target_dir // "README") (readme_text props);
           ret {| max_values := maxima;
                  seen_task_hashes := hashes;
                  seen_runtimes := runtimes |})%io
  end.

Fixpoint main_loop (destdir : string) (tables : Tables)
    (plan_dirs : list PlanDir) : io DestFS Tables :=
  match plan_dirs with
  | [] => ret tables
  | plan_dir :: rest =>
      (do tables <- main_body destdir tables plan_dir;
       main_loop destdir tables rest)%io
  end.

(** [main] up to the final reports, which print the three tables. *)
Definition main (destdir : string) (plan_dirs : list PlanDir)
  : io DestFS Tables :=
  main_loop destdir empty_tables plan_dirs.

(** ** Vocabulary of the statements *)

(** The tables and the destination after an instance is retained. *)
Definition retained_tables (tables : Tables) (props : Props)
    (content : string) (maxima : gmap string pyval)
    (counts : gmap Z Z) : Tables :=
  {| max_values := <[domain props := maxima]> (max_values tables);
     seen_task_hashes :=
       <[domain props :=
           entry (seen_task_hashes tables) (domain props)
             ∪ {[md5_hexdigest content]}]> (seen_task_hashes tables);
     seen_runtimes := <[domain props := counts]> (seen_runtimes tables) |}.

Definition retained_fs (destdir : string) (props : Props)
    (content domain_text : string) (fs : DestFS) : DestFS :=
  let target_dir := destdir // domain props in
  {| dirs := {[target_dir]} ∪ dirs fs;
     files :=
       <[target_dir // "README" := readme_text props]>
         (<[target_dir // "domain.pddl" := domain_text]>
            (<[target_dir // problem_name_of props
                 := content]> (files fs))) |}.

(** An earlier plan directory of the same domain was hashed to [digest]:
    its record was read, has exit code 0, and its problem text has that
    digest. *)
Definition hashed_before (earlier : list PlanDir) (dom digest : string)
  : Prop :=
  ∃ plan_dir props content,
    plan_dir ∈ earlier
    ∧ properties_json plan_dir = Some props
    ∧ planner_exitcode props = 0
    ∧ domain props = dom
    ∧ problem_pddl plan_dir = Some content
    ∧ md5_hexdigest content = digest.

(** [path] is one of the three files the iteration of [plan_dir] writes:
    its record was read with exit code 0, and [path] is the problem file,
    the domain file or the README below the directory of its domain. *)
Definition written_by (destdir : string) (plan_dir : PlanDir)
    (path : string) : Prop :=
  ∃ props name,
    properties_json plan_dir = Some props
    ∧ planner_exitcode props = 0
    ∧ path = destdir // domain props // name
    ∧ (name = problem_name_of props
       ∨ name = "domain.pddl" ∨ name = "README").

End WithLibraries.

(** ** The reports printed at the end of [main] *)

(** The text [print(s)] writes. *)
Definition print (s : string) : string := s +:+ newline.

(** [sorted(d.items())]: the keys are distinct, so the order of the pairs
    is the order of their keys. *)
Definition item_le {V} (a b : string * V) : Prop := str_le a.1 b.1.

#[global] Instance item_le_dec {V} (a b : string * V) : Decision (item_le a b).
Proof. unfold item_le. apply _. Defined.

Definition sorted_items {V} (d : gmap string V) : list (string * V) :=
  merge_sort item_le (map_to_list d).

Definition bucket_le (a b : Z * Z) : Prop := (a.1 ≤ b.1)%Z.

#[global] Instance bucket_le_dec (a b : Z * Z) : Decision (bucket_le a b).
Proof. unfold bucket_le. apply _. Defined.

Definition sorted_buckets (d : gmap Z Z) : list (Z * Z) :=
  merge_sort bucket_le (map_to_list d).

Definition task_count_line (item : string * gset string) : string :=
  print (" " +:+ item.1 +:+ ": " +:+ str_int (Z.of_nat (size item.2))).

Definition print_task_count (seen_hashes : gmap string (gset string))
  : string :=
  print (newline +:+ "Tasks:")
    +:+ String.concat EmptyString (task_count_line <$> sorted_items seen_hashes).

Definition bucket_text (bucket : Z * Z) : string :=
  str_int bucket.1 +:+ "s: " +:+ str_int bucket.2.

Definition runtimes_line (item : string * gmap Z Z) : string :=
  print (" " +:+ item.1 +:+ ": "
           +:+ String.concat ", " (bucket_text <$> sorted_buckets item.2)).

Definition print_runtimes (runtimes : gmap string (gmap Z Z)) : string :=
  print (newline +:+ "Runtime smaller than:")
    +:+ String.concat EmptyString (runtimes_line <$> sorted_items runtimes).

(** The number of runtimes counted in the buckets of one domain. *)
Definition total_count (counts : gmap Z Z) : Z :=
  map_fold (λ _ n acc, n + acc) 0 counts.

(** In every domain the bucket counts add up to at most the number of
    digests, and only bounds of [RUNTIME_BOUNDS] are counted, each at least
    once. *)
Definition buckets_bounded (tables : Tables) : Prop :=
  ∀ dom_name,
    (total_count (entry (seen_runtimes tables) dom_name)
     ≤ Z.of_nat (size (entry (seen_task_hashes tables) dom_name)))%Z
    ∧ ∀ bound n,
        entry (seen_runtimes tables) dom_name !! bound = Some n →
        bound ∈ RUNTIME_BOUNDS ∧ (1 ≤ n)%Z.

(** The three tables bind the same domains, and no domain to an empty
    set of digests. *)
Definition tables_aligned (tables : Tables) : Prop :=
  dom (max_values tables) = dom (seen_task_hashes tables)
  ∧ dom (seen_runtimes tables) = dom (seen_task_hashes tables)
  ∧ ∀ dom_name digests,
      seen_task_hashes tables !! dom_name = Some digests → digests ≠ ∅.

(** [new] is [old] or compares greater. *)
Definition not_below (new old : pyval) : Prop :=
  new = old ∨ py_gt new old = Some true.

End Collect.

(* ===================================================================== *)
(** * generate-instances.py *)
(* ===================================================================== *)

Module Generate.

(** The files below the SMAC run directory: text files ([run.log],
    [run.err], the generated PDDL files, ...) and JSON documents, by
    path. *)
Record World := {
  texts : gmap string string;
  json_files : gmap string pyval;
}.

Definition TMP_PLAN_DIR : string := "plan".

(** ** [re.search("runtime: (.+?)s real", output)] *)

Definition is_newline (c : ascii) : bool := Ascii.eqb c (ascii_of_nat 10).

(** [strip_prefix p s] is what follows [p] in [s] when [s] starts with
    [p]. *)
Fixpoint strip_prefix (p s : string) : option string :=
  match p with
  | EmptyString => Some s
  | String a p' =>
      match s with
      | EmptyString => None
      | String b s' => if Ascii.eqb a b then strip_prefix p' s' else None
      end
  end.

(** The lazy group [.+?] once it holds a character: stop as soon as
    [s real] follows, else take one more character other than a newline. *)
Fixpoint lazy_group_rest (s : string) : option string :=
  match strip_prefix "s real" s with
  | Some _ => Some EmptyString
  | None =>
      match s with
      | EmptyString => None
      | String c rest =>
          if is_newline c then None
          else option_map (String c) (lazy_group_rest rest)
      end
  end.

(** The match attempted at one start position; the result is group 1. *)
Definition match_runtime_here (s : string) : option string :=
  match strip_prefix "runtime: " s with
  | Some (String c rest) =>
      if is_newline c then None
      else option_map (String c) (lazy_group_rest rest)
  | _ => None
  end.

(** The leftmost start position that matches wins. *)
Fixpoint search_runtime (output : string) : option string :=
  match match_runtime_here output with
  | Some group => Some group
  | None =>
      match output with
      | EmptyString => None
      | String _ rest => search_runtime rest
      end
  end.

(** Whether a text holds a line feed. *)
Fixpoint has_newline (s : string) : bool :=
  match s with
  | EmptyString => false
  | String c rest => is_newline c || has_newline rest
  end.

(** ** [json.dump(..., sort_keys=True)] *)

Definition key_le (a b : string * pyval) : Prop := Collect.str_le a.1 b.1.

#[global] Instance key_le_dec a b : Decision (key_le a b).
Proof. unfold key_le. apply _. Defined.

(** The document written: every object has its members in key order. *)
Fixpoint sort_keys (v : pyval) : pyval :=
  match v with
  | PDict items =>
      PDict (merge_sort key_le
               ((λ kv, match kv with (k, x) => (k, sort_keys x) end)
                  <$> items))
  | _ => v
  end.

(** [d[key]] on a document; [None] when [d] is no object or lacks it. *)
Definition member (key : string) (d : pyval) : option pyval :=
  match d with
  | PDict items => snd <$> List.find (λ kv, String.eqb kv.1 key) items
  | _ => None
  end.

Definition member_names (d : pyval) : list string :=
  match d with
  | PDict items => items.*1
  | _ => []
  end.

(** A value that is no container, and an object all of whose members are
    such values: a flat object. *)
Definition is_scalar (v : pyval) : bool :=
  match v with
  | PDict _ => false
  | _ => true
  end.

Definition is_flat_object (d : pyval) : bool :=
  match d with
  | PDict items => forallb (λ kv, is_scalar kv.2) items
  | _ => false
  end.

Definition pyval_of_runtime (runtime : option pyfloat) : pyval :=
  match runtime with
  | Some r => PFloat r
  | None => PNone
  end.

Section WithEnvironment.

(** [ARGS.domain] and the SMAC run directory. *)
Variable ARGS_domain : string.
Variable SMAC_RUN_DIR : string.

(** [DOMAIN.adapt_parameters] of [domains]: the adapted configuration,
    or an exception ([IllegalConfiguration] among them). *)
Variable adapt_parameters :
  gmap string pyval → result (gmap string pyval).

(** [utils.generate_input_files] with the generator directory and the
    domain fixed: runs the generator, returns the plan directory. *)
Variable generate_input_files :
  gmap string pyval → Z → string → io World string.

(** [RUNNER.run_planner]: runs the planner in the plan directory and
    returns its exit code. *)
Variable run_planner : string → io World Z.

(** [float(s)]; [None] is its [ValueError]. *)
Variable float_of_string : string → option pyfloat.

(** What the [xz] tool makes of a file's text. *)
Variable xz_compress : string → string.

Definition show_error_log (plan_dir : string) : io World unit :=
  λ w, match texts w !! (plan_dir // "run.err") with
       | None => (Ok tt, w)
       | Some output => (Ok tt, w)
       end.

Definition parse_runtime (plan_dir : string) : io World pyfloat :=
  λ w, match texts w !! (plan_dir // "run.log") with
       | None => (Raise FileNotFoundError, w)
       | Some output =>
           match search_runtime output with
           | None => (Raise AttributeError, w)
           | Some group =>
               match float_of_string group with
               | None => (Raise ValueError, w)
               | Some runtime => (Ok (py_max float_0_1 runtime), w)
               end
           end
       end.

(** The dictionary [results] of [store_results]. *)
Definition results_of (cfg : gmap string pyval) (seed : Z)
    (exitcode : Z) (runtime : option pyfloat) : pyval :=
  PDict [ ("domain", PStr ARGS_domain);
          ("parameters", PDict (map_to_list cfg));
          ("seed", PInt seed);
          ("planner_exitcode", PInt exitcode);
          ("runtime", pyval_of_runtime runtime) ].

Definition store_results (cfg : gmap string pyval) (seed : Z)
    (plan_dir : string) (exitcode : Z) (runtime : option pyfloat)
  : io World unit :=
  λ w, (Ok tt,
        {| texts := texts w;
           json_files :=
             <[plan_dir // "properties.json" :=
                 sort_keys (results_of cfg seed exitcode runtime)]>
               (json_files w) |}).

(** [subprocess.run(["xz", "run.log"], cwd=plan_dir)]: the log is
    replaced by its compressed form; [xz] leaves everything as it is when
    the log is missing or the target exists.  Its exit status is not
    looked at, and the tool is taken to be installed. *)
Definition xz_run_log (plan_dir : string) : io World unit :=
  λ w, match texts w !! (plan_dir // "run.log"),
             texts w !! (plan_dir // "run.log.xz") with
       | Some output, None =>
           (Ok tt,
            {| texts := <[plan_dir // "run.log.xz" := xz_compress output]>
                          (delete (plan_dir // "run.log") (texts w));
               json_files := json_files w |})
       | _, _ => (Ok tt, w)
       end.

(** The logging calls and the peak-memory query are left out. *)
Definition evaluate_configuration (cfg : gmap string pyval) (seed : Z)
  : io World pyval :=
  match adapt_parameters cfg with
  | Raise IllegalConfiguration => ret (PInt 100)
  | Raise err => raise err
  | Ok cfg =>
      λ w,
        match generate_input_files cfg seed
                (SMAC_RUN_DIR // TMP_PLAN_DIR) w with
        | (Raise CalledProcessError, w') => (Ok (PInt 100), w')
        | (Raise err, w') => (Raise err, w')
        | (Ok plan_dir, w') =>
            (do exitcode <- run_planner plan_dir;
             do runtime <-
               (if (exitcode =? 0)%Z
                then do r <- parse_runtime plan_dir; ret (Some r)
                else ret None);
             exec store_results cfg seed plan_dir exitcode runtime;
             exec show_error_log plan_dir;
             exec xz_run_log plan_dir;
             match runtime with
             | Some r => ret (PFloat (float_neg r))
             | None => ret (PInt 100)
             end)%io w'
        end
  end.

(** ** Vocabulary of the statements *)

(** The run record of a plan directory, when one is stored. *)
Definition run_record (plan_dir : string) (w : World) : option pyval :=
  json_files w !! (plan_dir // "properties.json").

(** The world after [store_results]. *)
Definition stored (cfg : gmap string pyval) (seed : Z) (plan_dir : string)
    (exitcode : Z) (runtime : option pyfloat) (w : World) : World :=
  (store_results cfg seed plan_dir exitcode runtime w).2.

(** The run record as the specification words it: a flat object with
    exactly the five keys, [seed] an integer. *)
Definition flat_run_record (cfg : gmap string pyval) (seed : Z)
    (plan_dir : string) (exitcode : Z) (runtime : option pyfloat)
    (w : World) : Prop :=
  ∃ doc,
    run_record plan_dir (stored cfg seed plan_dir exitcode runtime w)
    = Some doc
    ∧ is_flat_object doc = true
    ∧ member_names doc
      ≡ₚ ["domain"; "parameters"; "seed"; "planner_exitcode"; "runtime"]
    ∧ ∃ z, member "seed" doc = Some (PInt z).

End WithEnvironment.

End Generate.

(* ===================================================================== *)
(** * From the generation loop to the collection pass *)
(* ===================================================================== *)

Module Pipeline.

Import Collect Generate.

(** The record that the lookups of [main] in [collect-instances.py]
    ([props["planner_exitcode"]], [props["domain"]], [props["runtime"]],
    [props["parameters"]], [props["seed"]]) see in a document loaded from
    [properties.json]; [None] when the document is not of the record
    format. *)
Definition props_of_document (doc : pyval) : option Props :=
  match member "domain" doc, member "parameters" doc, member "seed" doc,
        member "planner_exitcode" doc, member "runtime" doc with
  | Some (PStr d), Some (PDict items), Some (PInt s), Some (PInt x), Some rt =>
      Some {| domain := d;
              parameters := list_to_map items;
              seed := s;
              planner_exitcode := x;
              runtime := rt |}
  | _, _, _, _, _ => None
  end.

End Pipeline.

(* ===================================================================== *)
(** * Sample data *)
(* ===================================================================== *)

Module Sample.

Import Collect.

(** A text stands for its own digest. *)
Definition digest (s : string) : string := s.

(** Values in key order joined by dashes, for dictionaries of integers. *)
Definition join_ints (parameters : gmap string pyval) : string :=
  String.concat "-"
    (omap (λ kv, match kv.2 with PInt z => Some (str_int z) | _ => None end)
       (merge_sort Generate.key_le (map_to_list parameters))).

Definition solved_props : Props :=
  {| domain := "blocksworld";
     parameters := {[ "n" := PInt 4; "towers" := PInt 2 ]};
     seed := 7;
     planner_exitcode := 0;
     runtime := PFloat (Fin (Qmake 3 2)) |}.

Definition failed_props : Props :=
  {| domain := "blocksworld";
     parameters := {[ "n" := PInt 9; "towers" := PInt 3 ]};
     seed := 8;
     planner_exitcode := 1;
     runtime := PNone |}.

Definition solved_dir : PlanDir :=
  {| properties_json := Some solved_props;
     problem_pddl := Some "(define (problem bw-4-2))";
     domain_pddl := Some "(define (domain blocksworld))" |}.

Definition failed_dir : PlanDir :=
  {| properties_json := Some failed_props;
     problem_pddl := Some "(define (problem bw-9-3))";
     domain_pddl := Some "(define (domain blocksworld))" |}.

Definition empty_dir : PlanDir :=
  {| properties_json := None; problem_pddl := None; domain_pddl := None |}.

(** The same problem text as [solved_dir], found under another domain. *)
Definition other_domain_dir : PlanDir :=
  {| properties_json :=
       Some {| domain := "gripper";
               parameters := {[ "n" := PInt 4 ]};
               seed := 1;
               planner_exitcode := 0;
               runtime := PFloat (Fin (Qmake 25 1)) |};
     problem_pddl := Some "(define (problem bw-4-2))";
     domain_pddl := Some "(define (domain gripper))" |}.

Definition empty_fs : DestFS := {| dirs := ∅; files := ∅ |}.

(** The tables and the destination after a pass over [solved_dir]. *)
Definition after_solved : result Tables * DestFS :=
  main digest join_ints "benchmarks" [solved_dir] empty_fs.

Definition solved_tables : Tables :=
  match after_solved.1 with
  | Ok tables => tables
  | Raise _ => empty_tables
  end.

Definition solved_fs : DestFS := after_solved.2.

(** A world with the log of a planner run in [smac/run_1/plan/1]. *)
Definition planner_log : string :=
  "INFO planner finished" +:+ newline
    +:+ "runtime: 0.02s real, 0.01s user".

Definition logged_world : Generate.World :=
  {| Generate.texts := {[ "smac/run_1/plan/1/run.log" := planner_log ]};
     Generate.json_files := ∅ |}.

Definition empty_world : Generate.World :=
  {| Generate.texts := ∅; Generate.json_files := ∅ |}.

(** The two literals the sample logs hold. *)
Definition float_of_literal (s : string) : option pyfloat :=
  if String.eqb s "0.02" then Some (Fin (Qmake 1 50))
  else if String.eqb s "1.5" then Some (Fin (Qmake 3 2))
  else None.

(** A domain that wants at least one block. *)
Definition adapt_blocks (cfg : gmap string pyval)
  : result (gmap string pyval) :=
  match cfg !! "n" with
  | Some (PInt n) => if (0 <? n)%Z then Ok cfg else Raise IllegalConfiguration
  | _ => Raise IllegalConfiguration
  end.

(** A generator that fails for more towers than blocks. *)
Definition generate_blocks (cfg : gmap string pyval) (seed : Z)
    (tmp_dir : string) : io Generate.World string :=
  λ w, match cfg !! "n", cfg !! "towers" with
       | Some (PInt n), Some (PInt t) =>
           if (t <=? n)%Z then (Ok (tmp_dir // "1"), w)
           else (Raise CalledProcessError, w)
       | _, _ => (Raise CalledProcessError, w)
       end.

(** A planner that solves tasks with fewer than five blocks. *)
Definition run_small_planner (cfg_n : Z) (plan_dir : string)
  : io Generate.World Z :=
  λ w, if (cfg_n <? 5)%Z then (Ok 0, w) else (Ok 1, w).

Definition small_cfg : gmap string pyval :=
  {[ "n" := PInt 4; "towers" := PInt 2 ]}.

Definition large_cfg : gmap string pyval :=
  {[ "n" := PInt 9; "towers" := PInt 3 ]}.

Definition no_blocks_cfg : gmap string pyval :=
  {[ "n" := PInt 0; "towers" := PInt 0 ]}.

Definition many_towers_cfg : gmap string pyval :=
  {[ "n" := PInt 2; "towers" := PInt 3 ]}.

(** Plan directories that make the pass raise. *)
Definition no_problem_dir : PlanDir :=
  {| properties_json := Some solved_props;
     problem_pddl := None;
     domain_pddl := Some "(define (domain blocksworld))" |}.

Definition no_domain_dir : PlanDir :=
  {| properties_json := Some solved_props;
     problem_pddl := Some "(define (problem bw-4-2))";
     domain_pddl := None |}.

Definition null_runtime_dir : PlanDir :=
  {| properties_json :=
       Some {| domain := "blocksworld";
               parameters := {[ "n" := PInt 5; "towers" := PInt 1 ]};
               seed := 2;
               planner_exitcode := 0;
               runtime := PNone |};
     problem_pddl := Some "(define (problem bw-5-1))";
     domain_pddl := Some "(define (domain blocksworld))" |}.

(** A larger task of the domain of [solved_dir]. *)
Definition harder_dir : PlanDir :=
  {| properties_json :=
       Some {| domain := "blocksworld";
               parameters := {[ "n" := PInt 6; "towers" := PInt 2 ]};
               seed := 3;
               planner_exitcode := 0;
               runtime := PFloat (Fin (Qmake 30 1)) |};
     problem_pddl := Some "(define (problem bw-6-2))";
     domain_pddl := Some "(define (domain blocksworld))" |}.

(** A pass over two domains, and a pass that goes on from [solved_tables]. *)
Definition two_domains : list PlanDir :=
  [solved_dir; failed_dir; other_domain_dir].

Definition after_two_domains : result Tables * DestFS :=
  main digest join_ints "benchmarks" two_domains empty_fs.

Definition two_domains_tables : Tables :=
  match after_two_domains.1 with
  | Ok tables => tables
  | Raise _ => empty_tables
  end.

Definition after_harder : result Tables * DestFS :=
  main_loop digest join_ints "benchmarks" solved_tables [harder_dir] solved_fs.

Definition harder_tables : Tables :=
  match after_harder.1 with
  | Ok tables => tables
  | Raise _ => empty_tables
  end.

(** A world in which generator and planner have left their files. *)
Definition ready_world : Generate.World :=
  {| Generate.texts :=
       {[ "smac/run_1/plan/1/run.log" := planner_log;
          "smac/run_1/plan/1/problem.pddl" := "(define (problem bw-4-2))";
          "smac/run_1/plan/1/domain.pddl" := "(define (domain blocksworld))" ]};
     Generate.json_files := ∅ |}.

(** The evaluation of [small_cfg] in [ready_world]. *)
Definition solved_evaluation : result pyval * Generate.World :=
  Generate.evaluate_configuration "blocksworld" "smac/run_1" adapt_blocks
    generate_blocks (run_small_planner 4) float_of_literal id small_cfg 7
    ready_world.

(** A domain whose adaptation breaks, and a planner that cannot start. *)
Definition adapt_broken (cfg : gmap string pyval)
  : result (gmap string pyval) := Raise ValueError.

Definition run_no_planner (plan_dir : string) : io Generate.World Z :=
  λ w, (Raise (OtherError "PermissionError"), w).

End Sample.

(* ===================================================================== *)
(** * Properties of the collection pass *)
(* ===================================================================== *)

Import Collect.

Lemma defaultdict_get_value {V} `{Empty V} (d : gmap string V) key :
  (defaultdict_get d key).1 = entry d key.
Proof.
  unfold defaultdict_get, entry. by destruct (d !! key).
Qed.

Lemma defaultdict_get_bound {V} `{Empty V} (d : gmap string V) key v :
  d !! key = Some v → defaultdict_get d key = (v, d).
Proof. intros Hk. unfold defaultdict_get. by rewrite Hk. Qed.

Lemma defaultdict_get_insert {V} `{Empty V} (d : gmap string V) key v :
  <[key := v]> (defaultdict_get d key).2 = <[key := v]> d.
Proof.
  unfold defaultdict_get. destruct (d !! key); simpl; [done|].
  apply insert_insert_eq.
Qed.

Lemma entry_insert {V} `{Empty V} (d : gmap string V) key key' v :
  entry (<[key := v]> d) key' = if decide (key = key') then v else entry d key'.
Proof.
  unfold entry. rewrite lookup_insert. by case_decide.
Qed.

(** ** Comparisons of numbers *)





Lemma py_le_number runtime x (b : Z) :
  as_number runtime = Some x →
  py_le runtime (PInt b) = Some (float_le x (Fin (inject_Z b))).
Proof. intros Hx. unfold py_le. by rewrite Hx. Qed.

(** ** The order on strings *)

Lemma str_le_alt s t : str_le s t ↔ s = t ∨ String.compare s t = Lt.
Proof.
  unfold str_le, String.leb. split.
  - destruct (String.compare s t) eqn:Hc; [|auto|done].
    left. by apply String.compare_eq_iff.
  - intros [-> | ->]; [|done].
    destruct (String.compare t t) eqn:Hc; try done.
    pose proof (String.compare_antisym t t) as Ha.
    rewrite Hc in Ha. discriminate.
Qed.

#[global] Instance str_le_trans : Transitive str_le.
Proof.
  intros a b c. rewrite !str_le_alt. intros [-> | Hab] [-> | Hbc]; auto.
  right.
  exact (@transitivity _ _
           (@StrictOrder_Transitive _ _ String_as_OT.lt_strorder)
           a b c Hab Hbc).
Qed.

#[global] Instance str_le_total : Total str_le.
Proof. intros a b. apply String.leb_total. Qed.

Lemma sorted_keys_elem_of {V} (d : gmap string V) key :
  key ∈ sorted_keys d ↔ is_Some (d !! key).
Proof.
  unfold sorted_keys. rewrite merge_sort_Permutation.
  rewrite list_elem_of_fmap. split.
  - intros ([k v] & -> & Hin). apply elem_of_map_to_list in Hin. by exists v.
  - intros [v Hv]. exists (key, v). split; [done|].
    by apply elem_of_map_to_list.
Qed.

Lemma sorted_keys_NoDup {V} (d : gmap string V) : NoDup (sorted_keys d).
Proof.
  unfold sorted_keys. rewrite merge_sort_Permutation.
  apply NoDup_fst_map_to_list.
Qed.

Lemma sorted_keys_sorted {V} (d : gmap string V) :
  StronglySorted str_le (sorted_keys d).
Proof. unfold sorted_keys. apply StronglySorted_merge_sort; apply _. Qed.

Section CollectFacts.

Variable md5_hexdigest : string → string.
Variable join_parameters : gmap string pyval → string.

Abbreviation main_body := (main_body md5_hexdigest join_parameters).
Abbreviation main_loop := (main_loop md5_hexdigest join_parameters).
Abbreviation main := (main md5_hexdigest join_parameters).
Abbreviation retained_tables := (retained_tables md5_hexdigest).
Abbreviation retained_fs := (retained_fs join_parameters).
Abbreviation hashed_before := (hashed_before md5_hexdigest).
Abbreviation problem_name_of := (problem_name_of join_parameters).

(** The body of the loop, case by case. *)
Lemma main_body_unfold destdir tables plan_dir fs :
  main_body destdir tables plan_dir fs =
  match properties_json plan_dir with
  | None => (Ok tables, fs)
  | Some props =>
      if decide (planner_exitcode props = 0) then
        match problem_pddl plan_dir with
        | None => (Raise FileNotFoundError, fs)
        | Some content =>
            if decide (md5_hexdigest content
                         ∈ entry (seen_task_hashes tables) (domain props))
            then (Ok tables, fs)
            else
              match record_max_values
                      (<["planner_runtime" := runtime props]> (parameters props))
                      (entry (max_values tables) (domain props)) with
              | Raise e => (Raise e, fs)
              | Ok maxima =>
                  match record_runtime
                          (entry (seen_runtimes tables) (domain props))
                          (runtime props) with
                  | Raise e => (Raise e, fs)
                  | Ok counts =>
                      match domain_pddl plan_dir with
                      | None =>
                          (Raise FileNotFoundError,
                           {| dirs := {[destdir // domain props]} ∪ dirs fs;
                              files :=
                                <[destdir // domain props
                                    // problem_name_of props
                                  := content]> (files fs) |})
                      | Some domain_text =>
                          (Ok (retained_tables tables props content
                                 maxima counts),
                           retained_fs destdir props content domain_text fs)
                      end
                  end
              end
        end
      else (Ok tables, fs)
  end.
Proof.
  unfold Collect.main_body, hash_task.
  destruct (properties_json plan_dir) as [props|]; [|done].
  case_decide as Hx; [|by apply Z.eqb_neq in Hx; rewrite Hx].
  rewrite Hx. simpl.
  destruct (problem_pddl plan_dir) as [content|]; [|done].
  unfold bind at 1. unfold lift at 1. unfold _compute_md5_hash.
  destruct (defaultdict_get (seen_task_hashes tables) (domain props))
    as [seen hashes] eqn:Hget.
  pose proof (defaultdict_get_value (seen_task_hashes tables) (domain props))
    as Hseen.
  pose proof (defaultdict_get_insert (seen_task_hashes tables) (domain props))
    as Hins.
  rewrite Hget in Hseen, Hins. simpl in Hseen, Hins. subst seen.
  case_decide as Hdup.
  { unfold entry in Hdup.
    destruct (seen_task_hashes tables !! domain props) as [seen|] eqn:Hd;
      simpl in Hdup; [|set_solver].
    rewrite (defaultdict_get_bound _ _ _ Hd) in Hget.
    injection Hget as _ <-. unfold ret. by destruct tables. }
  destruct (defaultdict_get (max_values tables) (domain props))
    as [mdv maxes] eqn:Hget2.
  pose proof (defaultdict_get_value (max_values tables) (domain props))
    as Hmdv.
  pose proof (defaultdict_get_insert (max_values tables) (domain props))
    as Hins2.
  rewrite Hget2 in Hmdv, Hins2. simpl in Hmdv, Hins2. subst mdv.
  unfold bind at 1. unfold lift at 1.
  destruct (record_max_values _ _) as [maxima|e]; [|done].
  destruct (defaultdict_get (seen_runtimes tables) (domain props))
    as [rts runtimes] eqn:Hget3.
  pose proof (defaultdict_get_value (seen_runtimes tables) (domain props))
    as Hrts.
  pose proof (defaultdict_get_insert (seen_runtimes tables) (domain props))
    as Hins3.
  rewrite Hget3 in Hrts, Hins3. simpl in Hrts, Hins3. subst rts.
  unfold bind at 1. unfold lift at 1.
  destruct (record_runtime _ _) as [counts|e]; [|done].
  unfold Collect.retained_tables, Collect.retained_fs.
  destruct (domain_pddl plan_dir) as [domain_text|];
    unfold bind, mkdir, copy2, write_text, ret, raise; simpl; [|done].
  by rewrite Hins, Hins2, Hins3.
Qed.

Lemma main_body_missing destdir tables plan_dir fs :
  properties_json plan_dir = None →
  main_body destdir tables plan_dir fs = (Ok tables, fs).
Proof. intros Hp. by rewrite main_body_unfold, Hp. Qed.

Lemma main_body_failed destdir tables plan_dir props fs :
  properties_json plan_dir = Some props →
  planner_exitcode props ≠ 0 →
  main_body destdir tables plan_dir fs = (Ok tables, fs).
Proof.
  intros Hp Hx. rewrite main_body_unfold, Hp. by rewrite decide_False.
Qed.

Lemma main_body_duplicate destdir tables plan_dir props content fs :
  properties_json plan_dir = Some props →
  planner_exitcode props = 0 →
  problem_pddl plan_dir = Some content →
  md5_hexdigest content ∈ entry (seen_task_hashes tables) (domain props) →
  main_body destdir tables plan_dir fs = (Ok tables, fs).
Proof.
  intros Hp Hx Hc Hseen. rewrite main_body_unfold, Hp, Hc.
  rewrite decide_True by done. by rewrite decide_True.
Qed.

Lemma main_body_retained destdir tables plan_dir props content domain_text
    maxima counts fs :
  properties_json plan_dir = Some props →
  planner_exitcode props = 0 →
  problem_pddl plan_dir = Some content →
  md5_hexdigest content ∉ entry (seen_task_hashes tables) (domain props) →
  record_max_values
    (<["planner_runtime" := runtime props]> (parameters props))
    (entry (max_values tables) (domain props)) = Ok maxima →
  record_runtime (entry (seen_runtimes tables) (domain props))
    (runtime props) = Ok counts →
  domain_pddl plan_dir = Some domain_text →
  main_body destdir tables plan_dir fs
  = (Ok (retained_tables tables props content maxima counts),
     retained_fs destdir props content domain_text fs).
Proof.
  intros Hp Hx Hc Hnew Hmax Hrt Hdom.
  rewrite main_body_unfold, Hp, Hc, Hmax, Hrt, Hdom.
  rewrite decide_True by done. by rewrite decide_False.
Qed.

(** How a completed iteration came about: the plan directory was skipped
    and nothing changed, or its instance was retained. *)
Lemma main_body_inv destdir tables plan_dir fs tables' fs' :
  main_body destdir tables plan_dir fs = (Ok tables', fs') →
  (tables' = tables ∧ fs' = fs ∧
   (properties_json plan_dir = None
    ∨ (∃ props, properties_json plan_dir = Some props
                ∧ planner_exitcode props ≠ 0)
    ∨ (∃ props content,
         properties_json plan_dir = Some props
         ∧ planner_exitcode props = 0
         ∧ problem_pddl plan_dir = Some content
         ∧ md5_hexdigest content
             ∈ entry (seen_task_hashes tables) (domain props))))
  ∨ (∃ props content domain_text maxima counts,
       properties_json plan_dir = Some props
       ∧ planner_exitcode props = 0
       ∧ problem_pddl plan_dir = Some content
       ∧ (md5_hexdigest content
            ∉ entry (seen_task_hashes tables) (domain props))
       ∧ record_max_values
           (<["planner_runtime" := runtime props]> (parameters props))
           (entry (max_values tables) (domain props)) = Ok maxima
       ∧ record_runtime (entry (seen_runtimes tables) (domain props))
           (runtime props) = Ok counts
       ∧ domain_pddl plan_dir = Some domain_text
       ∧ tables' = retained_tables tables props content maxima counts
       ∧ fs' = retained_fs destdir props content domain_text fs).
Proof.
  rewrite main_body_unfold.
  destruct (properties_json plan_dir) as [props|] eqn:Hp;
    [|intros [= <- <-]; left; auto].
  case_decide as Hx; [|intros [= <- <-]; left; eauto 10].
  destruct (problem_pddl plan_dir) as [content|] eqn:Hc; [|done].
  case_decide as Hdup; [intros [= <- <-]; left; eauto 10|].
  destruct (record_max_values _ _) as [maxima|] eqn:Hmax; [|done].
  destruct (record_runtime _ _) as [counts|] eqn:Hrt; [|done].
  destruct (domain_pddl plan_dir) as [domain_text|] eqn:Hdom; [|done].
  intros [= <- <-]. right. eauto 20.
Qed.

(** The loop over a concatenation runs the first part, then the second. *)
Lemma main_loop_app destdir tables l1 l2 fs :
  main_loop destdir tables (l1 ++ l2) fs =
  match main_loop destdir tables l1 fs with
  | (Ok tables', fs') => main_loop destdir tables' l2 fs'
  | (Raise e, fs') => (Raise e, fs')
  end.
Proof.
  revert tables fs. induction l1 as [|pd l1 IH]; intros tables fs; [done|].
  simpl. unfold bind.
  destruct (main_body destdir tables pd fs) as [[t'|e] fs']; [apply IH|done].
Qed.

(** C1.  A plan directory whose [properties.json] is read and whose
    record has a non-zero [planner_exitcode] is skipped: the tables and the
    destination tree are left as they were, so nothing is copied.  Whenever
    an iteration leaves anything else behind, the record's exit code is 0.
    For the whole pass: such a plan directory can be removed from the input
    without changing the result. *)
Theorem C1_retained_only_if_exitcode_zero destdir tables plan_dir props fs :
  properties_json plan_dir = Some props →
  (planner_exitcode props ≠ 0 →
   main_body destdir tables plan_dir fs = (Ok tables, fs))
  ∧ (main_body destdir tables plan_dir fs ≠ (Ok tables, fs) →
     planner_exitcode props = 0)
  ∧ (planner_exitcode props ≠ 0 →
     ∀ before after,
       main destdir (before ++ plan_dir :: after)%list fs
       = main destdir (before ++ after) fs).
Proof.
  intros Hp. split_and!.
  - by apply main_body_failed.
  - intros Hne. destruct (decide (planner_exitcode props = 0)) as [|Hx]; [done|].
    by destruct Hne; apply main_body_failed with props.
  - intros Hx before after. unfold Collect.main.
    rewrite !main_loop_app.
    destruct (main_loop destdir empty_tables before fs) as [[t|e] fs1]; [|done].
    simpl. unfold bind. by rewrite (main_body_failed _ _ _ props).
Qed.

(** ** Paths below one target directory *)

Lemma path_join_inj dir : Inj (=) (=) (path_join dir).
Proof.
  intros a b Heq. unfold path_join in Heq.
  by apply (inj (append dir)), (inj (append "/")) in Heq.
Qed.

Lemma problem_name_not_readme props : problem_name_of props ≠ "README".
Proof. unfold Collect.problem_name_of. by cbn. Qed.

Lemma problem_name_not_domain props : problem_name_of props ≠ "domain.pddl".
Proof. unfold Collect.problem_name_of. by cbn. Qed.

Lemma retained_fs_problem destdir props content domain_text fs :
  files (retained_fs destdir props content domain_text fs)
    !! (destdir // domain props // problem_name_of props) = Some content.
Proof.
  unfold Collect.retained_fs. simpl.
  rewrite lookup_insert_ne.
  2:{ intros Heq. apply path_join_inj in Heq.
      by apply (problem_name_not_readme props). }
  rewrite lookup_insert_ne.
  2:{ intros Heq. apply path_join_inj in Heq.
      by apply (problem_name_not_domain props). }
  apply lookup_insert_eq.
Qed.

Lemma retained_fs_domain destdir props content domain_text fs :
  files (retained_fs destdir props content domain_text fs)
    !! (destdir // domain props // "domain.pddl") = Some domain_text.
Proof.
  unfold Collect.retained_fs. simpl.
  rewrite lookup_insert_ne.
  2:{ intros Heq. by apply path_join_inj in Heq. }
  apply lookup_insert_eq.
Qed.

Lemma retained_fs_readme destdir props content domain_text fs :
  files (retained_fs destdir props content domain_text fs)
    !! (destdir // domain props // "README") = Some (readme_text props).
Proof. unfold Collect.retained_fs. simpl. apply lookup_insert_eq. Qed.

(** ** The digests seen so far *)

Lemma main_body_seen destdir tables plan_dir fs tables' fs' :
  main_body destdir tables plan_dir fs = (Ok tables', fs') →
  ∀ dom digest,
    digest ∈ entry (seen_task_hashes tables') dom
    ↔ digest ∈ entry (seen_task_hashes tables) dom
      ∨ hashed_before [plan_dir] dom digest.
Proof.
  intros Hbody dom digest.
  apply main_body_inv in Hbody
    as [(-> & -> & Hskip)
       |(props & content & dt & mx & cs & Hp & Hx & Hc & Hnew & _ & _ & _
         & -> & ->)].
  - split; [auto|]. intros [|(pd & props & content & Hin & Hp & Hx & <- & Hc & <-)];
      [done|].
    apply list_elem_of_singleton in Hin as ->.
    destruct Hskip as [Hnone|[(props' & Hp' & Hx')
                             |(props' & content' & Hp' & _ & Hc' & Hseen)]].
    + congruence.
    + congruence.
    + congruence.
  - simpl. rewrite entry_insert. case_decide as Hd.
    + subst dom. rewrite elem_of_union, elem_of_singleton. split.
      * intros [Hin | ->]; [auto|]. right. exists plan_dir, props, content.
        split_and!; try done. by apply list_elem_of_singleton.
      * intros [|(pd & props' & content' & Hin & Hp' & _ & _ & Hc' & <-)];
          [auto|].
        apply list_elem_of_singleton in Hin as ->. right. congruence.
    + split; [auto|].
      intros [|(pd & props' & content' & Hin & Hp' & _ & Hd' & _)]; [done|].
      apply list_elem_of_singleton in Hin as ->. congruence.
Qed.

Lemma hashed_before_cons plan_dir earlier dom digest :
  hashed_before (plan_dir :: earlier) dom digest
  ↔ hashed_before [plan_dir] dom digest ∨ hashed_before earlier dom digest.
Proof.
  unfold Collect.hashed_before. split.
  - intros (pd & props & content & Hin & H).
    apply elem_of_cons in Hin as [->|Hin].
    + left. exists plan_dir, props, content. split; [|done].
      by apply list_elem_of_singleton.
    + right. by exists pd, props, content.
  - intros [(pd & props & content & Hin & H)|(pd & props & content & Hin & H)];
      exists pd, props, content; (split; [|done]).
    + apply list_elem_of_singleton in Hin as ->. by left.
    + by right.
Qed.

Lemma main_loop_seen destdir tables earlier fs tables' fs' :
  main_loop destdir tables earlier fs = (Ok tables', fs') →
  ∀ dom digest,
    digest ∈ entry (seen_task_hashes tables') dom
    ↔ digest ∈ entry (seen_task_hashes tables) dom
      ∨ hashed_before earlier dom digest.
Proof.
  revert tables fs.
  induction earlier as [|pd earlier IH]; intros tables fs Hloop dom digest.
  - injection Hloop as <- <-. split; [auto|].
    intros [|(pd & ? & ? & Hin & _)]; [done|]. by apply elem_of_nil in Hin.
  - simpl in Hloop. unfold bind in Hloop.
    destruct (main_body destdir tables pd fs) as [[t1|e] fs1] eqn:Hbody;
      [|done].
    rewrite (hashed_before_cons pd earlier).
    rewrite (IH _ _ Hloop), (main_body_seen _ _ _ _ _ _ Hbody). tauto.
Qed.

(** C2.  Deduplication is by the MD5 digest of the problem text, per
    domain.  After the pass has gone through the plan directories [earlier],
    a plan directory with exit code 0 whose problem text has the digest of
    an earlier hashed problem of the same domain is dropped: tables and
    destination stay as they are.  When every earlier hashed problem with
    that digest belongs to another domain, the instance is not dropped: its
    problem file is copied (given that the rest of the iteration finds its
    inputs). *)
Theorem C2_duplicates_dropped_per_domain destdir earlier plan_dir props
    content tables fs0 fs :
  main destdir earlier fs0 = (Ok tables, fs) →
  properties_json plan_dir = Some props →
  planner_exitcode props = 0 →
  problem_pddl plan_dir = Some content →
  (hashed_before earlier (domain props) (md5_hexdigest content) →
   main_body destdir tables plan_dir fs = (Ok tables, fs))
  ∧ ((∀ plan_dir' props' content',
        plan_dir' ∈ earlier →
        properties_json plan_dir' = Some props' →
        planner_exitcode props' = 0 →
        problem_pddl plan_dir' = Some content' →
        md5_hexdigest content' = md5_hexdigest content →
        domain props' ≠ domain props) →
     ∀ domain_text maxima counts,
       record_max_values
         (<["planner_runtime" := runtime props]> (parameters props))
         (entry (max_values tables) (domain props)) = Ok maxima →
       record_runtime (entry (seen_runtimes tables) (domain props))
         (runtime props) = Ok counts →
       domain_pddl plan_dir = Some domain_text →
       ∃ fs',
         main_body destdir tables plan_dir fs
         = (Ok (retained_tables tables props content maxima counts), fs')
         ∧ files fs' !! (destdir // domain props // problem_name_of props)
           = Some content).
Proof.
  intros Hmain Hp Hx Hc.
  pose proof (main_loop_seen _ _ _ _ _ _ Hmain (domain props)
                (md5_hexdigest content)) as Hseen.
  split.
  - intros Hdup. apply main_body_duplicate with props content; try done.
    apply Hseen. by right.
  - intros Hother domain_text maxima counts Hmax Hrt Hdom.
    exists (retained_fs destdir props content domain_text fs). split.
    + apply main_body_retained; try done.
      intros [Hin|(pd & props' & content' & Hin & Hp' & Hx' & Hd & Hc' & Hh)]%Hseen.
      * by apply elem_of_empty in Hin.
      * by apply (Hother pd props' content').
    + apply retained_fs_problem.
Qed.

(** ** Writes into the destination *)

Lemma overlay_empty fs : overlay ∅ ∅ fs = fs.
Proof.
  unfold overlay. destruct fs as [d f]. simpl.
  by rewrite (left_id_L ∅ (∪) d), (left_id_L ∅ (∪) f).
Qed.

Lemma overlay_overlay made written made' written' fs :
  overlay made' written' (overlay made written fs)
  = overlay (made' ∪ made) (written' ∪ written) fs.
Proof.
  unfold overlay. simpl.
  by rewrite (assoc_L (∪) made'), (assoc_L (∪) written').
Qed.

Lemma overlay_twice made written fs :
  overlay made written (overlay made written fs) = overlay made written fs.
Proof.
  rewrite overlay_overlay.
  by rewrite (idemp_L (∪) made), (idemp_L (∪) written).
Qed.

Lemma retained_fs_overlay destdir props content domain_text fs :
  retained_fs destdir props content domain_text fs
  = overlay {[destdir // domain props]}
      (<[destdir // domain props // "README" := readme_text props]>
         (<[destdir // domain props // "domain.pddl" := domain_text]>
            {[destdir // domain props // problem_name_of props := content]}))
      fs.
Proof.
  unfold Collect.retained_fs, overlay. simpl. f_equal.
  by rewrite <- !insert_union_l, <- insert_union_singleton_l.
Qed.

Lemma main_body_writes_only destdir tables plan_dir :
  writes_only (main_body destdir tables plan_dir).
Proof.
  unfold writes_only.
  assert (∀ outcome, ∃ outcome' made written, ∀ fs : DestFS,
            (outcome, fs) = (outcome' : result Tables, overlay made written fs))
    as Hskip.
  { intros outcome. exists outcome, ∅, ∅. intros fs. by rewrite overlay_empty. }
  destruct (properties_json plan_dir) as [props|] eqn:Hp.
  2:{ destruct (Hskip (Ok tables)) as (o & m & w & H). exists o, m, w.
      intros fs. by rewrite main_body_unfold, Hp. }
  destruct (decide (planner_exitcode props = 0)) as [Hx|Hx].
  2:{ destruct (Hskip (Ok tables)) as (o & m & w & H). exists o, m, w.
      intros fs. rewrite main_body_unfold, Hp. by rewrite decide_False. }
  destruct (problem_pddl plan_dir) as [content|] eqn:Hc.
  2:{ destruct (Hskip (Raise FileNotFoundError)) as (o & m & w & H).
      exists o, m, w. intros fs. rewrite main_body_unfold, Hp, Hc.
      by rewrite decide_True. }
  destruct (decide (md5_hexdigest content
                      ∈ entry (seen_task_hashes tables) (domain props)))
    as [Hdup|Hnew].
  { destruct (Hskip (Ok tables)) as (o & m & w & H). exists o, m, w.
    intros fs. rewrite main_body_unfold, Hp, Hc.
    rewrite decide_True by done. by rewrite decide_True. }
  destruct (record_max_values
              (<["planner_runtime" := runtime props]> (parameters props))
              (entry (max_values tables) (domain props)))
    as [maxima|e] eqn:Hmax.
  2:{ destruct (Hskip (Raise e)) as (o & m & w & H). exists o, m, w.
      intros fs. rewrite main_body_unfold, Hp, Hc, Hmax.
      rewrite decide_True by done. by rewrite decide_False. }
  destruct (record_runtime (entry (seen_runtimes tables) (domain props))
              (runtime props)) as [counts|e] eqn:Hrt.
  2:{ destruct (Hskip (Raise e)) as (o & m & w & H). exists o, m, w.
      intros fs. rewrite main_body_unfold, Hp, Hc, Hmax, Hrt.
      rewrite decide_True by done. by rewrite decide_False. }
  destruct (domain_pddl plan_dir) as [domain_text|] eqn:Hdom.
  - eexists _, _, _. intros fs.
    rewrite (main_body_retained _ _ _ props content domain_text maxima counts)
      by done.
    by rewrite retained_fs_overlay.
  - exists (Raise FileNotFoundError), {[destdir // domain props]},
      {[destdir // domain props // problem_name_of props := content]}.
    intros fs. rewrite main_body_unfold, Hp, Hc, Hmax, Hrt, Hdom.
    rewrite decide_True by done. rewrite decide_False by done.
    unfold overlay. by rewrite insert_union_singleton_l.
Qed.

Lemma main_loop_writes_only destdir tables plan_dirs :
  writes_only (main_loop destdir tables plan_dirs).
Proof.
  revert tables. induction plan_dirs as [|pd plan_dirs IH]; intros tables.
  - exists (Ok tables), ∅, ∅. intros fs. simpl. unfold ret.
    by rewrite overlay_empty.
  - destruct (main_body_writes_only destdir tables pd)
      as (outcome & made & written & Hbody).
    destruct outcome as [tables'|e].
    + destruct (IH tables') as (outcome' & made' & written' & Hrest).
      exists outcome', (made' ∪ made), (written' ∪ written). intros fs.
      simpl. unfold bind. by rewrite Hbody, Hrest, overlay_overlay.
    + exists (Raise e), made, written. intros fs.
      simpl. unfold bind. by rewrite Hbody.
Qed.

(** C4.  Running the pass again over the same plan directories, on the
    destination the first run left, ends with the same outcome and leaves
    the destination as the first run left it: the same directories and the
    same files with the same contents. *)
Theorem C4_collection_idempotent destdir plan_dirs fs :
  main destdir plan_dirs (main destdir plan_dirs fs).2
  = main destdir plan_dirs fs.
Proof.
  unfold Collect.main.
  destruct (main_loop_writes_only destdir empty_tables plan_dirs)
    as (outcome & made & written & Hrun).
  rewrite !Hrun. simpl. by rewrite overlay_twice.
Qed.

(** C5.  When an instance is retained, the README of the domain's
    destination directory holds the line [Parameter order: ] followed by
    the keys of the record's [parameters], each once, in ascending order,
    separated by a comma and a space. *)
Theorem C5_readme_lists_sorted_keys destdir tables plan_dir props content
    domain_text maxima counts fs :
  properties_json plan_dir = Some props →
  planner_exitcode props = 0 →
  problem_pddl plan_dir = Some content →
  md5_hexdigest content ∉ entry (seen_task_hashes tables) (domain props) →
  record_max_values
    (<["planner_runtime" := runtime props]> (parameters props))
    (entry (max_values tables) (domain props)) = Ok maxima →
  record_runtime (entry (seen_runtimes tables) (domain props))
    (runtime props) = Ok counts →
  domain_pddl plan_dir = Some domain_text →
  ∃ tables' fs' keys,
    main_body destdir tables plan_dir fs = (Ok tables', fs')
    ∧ files fs' !! (destdir // domain props // "README")
      = Some ("Parameter order: " +:+ String.concat ", " keys
                +:+ newline)
    ∧ (∀ key, key ∈ keys ↔ is_Some (parameters props !! key))
    ∧ NoDup keys
    ∧ StronglySorted str_le keys.
Proof.
  intros Hp Hx Hc Hnew Hmax Hrt Hdom.
  exists (retained_tables tables props content maxima counts),
    (retained_fs destdir props content domain_text fs),
    (sorted_keys (parameters props)).
  split_and!.
  - by apply main_body_retained.
  - apply retained_fs_readme.
  - apply sorted_keys_elem_of.
  - apply sorted_keys_NoDup.
  - apply sorted_keys_sorted.
Qed.

(** C6.  When an instance is retained, the directory [<destdir>/<domain>]
    is made, the problem text is copied to
    [<destdir>/<domain>/p-<params>-<seed>.pddl], where [<params>] is the
    joined parameter string, and the text of the instance's [domain.pddl]
    is copied to [<destdir>/<domain>/domain.pddl]. *)
Theorem C6_instance_copied_to_domain_dir destdir tables plan_dir props content
    domain_text maxima counts fs :
  properties_json plan_dir = Some props →
  planner_exitcode props = 0 →
  problem_pddl plan_dir = Some content →
  md5_hexdigest content ∉ entry (seen_task_hashes tables) (domain props) →
  record_max_values
    (<["planner_runtime" := runtime props]> (parameters props))
    (entry (max_values tables) (domain props)) = Ok maxima →
  record_runtime (entry (seen_runtimes tables) (domain props))
    (runtime props) = Ok counts →
  domain_pddl plan_dir = Some domain_text →
  ∃ tables' fs',
    main_body destdir tables plan_dir fs = (Ok tables', fs')
    ∧ destdir // domain props ∈ dirs fs'
    ∧ files fs' !! (destdir // domain props
                      // ("p-" +:+ join_parameters (parameters props) +:+ "-"
                            +:+ str_int (seed props) +:+ ".pddl"))
      = Some content
    ∧ files fs' !! (destdir // domain props // "domain.pddl")
      = Some domain_text.
Proof.
  intros Hp Hx Hc Hnew Hmax Hrt Hdom.
  exists (retained_tables tables props content maxima counts),
    (retained_fs destdir props content domain_text fs).
  split_and!.
  - by apply main_body_retained.
  - unfold Collect.retained_fs. simpl. set_solver.
  - apply retained_fs_problem.
  - apply retained_fs_domain.
Qed.

(** ** The runtime buckets *)



Lemma count_in_bucket (counts : gmap Z Z) (bound : Z) :
  (let counts1 :=
     match counts !! bound with
     | None => <[bound := 0]> counts
     | Some _ => counts
     end in
   <[bound := (counts1 !!! bound) + 1]> counts1)
  = <[bound := default 0 (counts !! bound) + 1]> counts.
Proof.
  simpl. destruct (counts !! bound) as [n|] eqn:Hb; simpl.
  - by rewrite (lookup_total_correct _ _ _ Hb).
  - by rewrite lookup_total_insert_eq, insert_insert_eq.
Qed.

(** The loop stops at the first bound that the runtime does not exceed. *)
Lemma record_runtime_from_spec bounds counts runtime x :
  as_number runtime = Some x →
  (∃ skipped bound rest,
     bounds = (skipped ++ bound :: rest)%list
     ∧ (∀ b, b ∈ skipped → py_le runtime (PInt b) = Some false)
     ∧ py_le runtime (PInt bound) = Some true
     ∧ record_runtime_from bounds counts runtime
       = Ok (<[bound := default 0 (counts !! bound) + 1]> counts))
  ∨ ((∀ b, b ∈ bounds → py_le runtime (PInt b) = Some false)
     ∧ record_runtime_from bounds counts runtime = Ok counts).
Proof.
  intros Hx. induction bounds as [|bound bounds IH].
  - right. split; [|done]. intros b Hb. by apply elem_of_nil in Hb.
  - simpl. rewrite (py_le_number _ x) by done.
    destruct (float_le x (Fin (inject_Z bound))) eqn:Hle.
    + left. exists [], bound, bounds. split_and!; try done.
      * intros b Hb. by apply elem_of_nil in Hb.
      * by rewrite (py_le_number _ x), Hle.
      * f_equal. apply count_in_bucket.
    + destruct IH as [(skipped & b0 & rest & -> & Hsk & Hb0 & Hrun)|[Hall Hrun]].
      * left. exists (bound :: skipped), b0, rest. split_and!; try done.
        intros b [->|Hb]%elem_of_cons; [|by apply Hsk].
        by rewrite (py_le_number _ x), Hle.
      * right. split; [|done].
        intros b [->|Hb]%elem_of_cons; [|by apply Hall].
        by rewrite (py_le_number _ x), Hle.
Qed.


(** ** The table of maximum values *)

(** What one item does to the table: only its own key is touched. *)
Lemma record_max_value_spec stored key value stored' :
  record_max_value stored (key, value) = Ok stored' →
  (∀ other, other ≠ key → stored' !! other = stored !! other)
  ∧ ((stored !! key = None ∧ stored' !! key = Some value)
     ∨ (∃ old, stored !! key = Some old
               ∧ ((py_gt value old = Some true ∧ stored' !! key = Some value)
                  ∨ (py_gt value old = Some false
                     ∧ stored' !! key = Some old)))).
Proof.
  unfold record_max_value.
  destruct (stored !! key) as [old|] eqn:Hk.
  - destruct (py_gt value old) as [[]|] eqn:Hgt; [| |done]; intros [= <-].
    + split; [intros; by apply lookup_insert_ne|].
      right. exists old. split; [done|]. left. by rewrite lookup_insert_eq.
    + split; [done|]. right. exists old. auto.
  - intros [= <-]. split; [intros; by apply lookup_insert_ne|].
    left. by rewrite lookup_insert_eq.
Qed.

Lemma record_max_items_spec items stored stored' :
  NoDup items.*1 →
  record_max_items items stored = Ok stored' →
  ∀ key,
    (key ∉ items.*1 → stored' !! key = stored !! key)
    ∧ (∀ value, (key, value) ∈ items →
         (stored !! key = None ∧ stored' !! key = Some value)
         ∨ (∃ old, stored !! key = Some old
              ∧ ((py_gt value old = Some true ∧ stored' !! key = Some value)
                 ∨ (py_gt value old = Some false
                    ∧ stored' !! key = Some old)))).
Proof.
  revert stored. induction items as [|[k v] items IH]; intros stored Hnd Hrun key.
  - injection Hrun as <-. split; [done|]. intros value Hin.
    by apply elem_of_nil in Hin.
  - cbn [record_max_items] in Hrun.
    destruct (record_max_value stored (k, v)) as [stored1|] eqn:Hone; [|done].
    cbn [result_bind] in Hrun. rewrite fmap_cons in Hnd.
    apply NoDup_cons in Hnd as [Hk Hnd].
    apply record_max_value_spec in Hone as [Hothers Hkey].
    destruct (IH stored1 Hnd Hrun key) as [Hout Hin]. split.
    + intros Hnotin. apply not_elem_of_cons in Hnotin as [Hne Hnotin].
      rewrite (Hout Hnotin). by apply Hothers.
    + intros value [[= -> ->]|Hin']%elem_of_cons.
      * destruct (IH stored1 Hnd Hrun k) as [Hrest _].
        rewrite (Hrest Hk). exact Hkey.
      * assert (key ≠ k) as Hne.
        { intros ->. apply Hk. apply list_elem_of_fmap. by exists (k, value). }
        rewrite <- (Hothers key Hne). by apply Hin.
Qed.

Lemma record_max_values_spec values stored stored' :
  record_max_values values stored = Ok stored' →
  ∀ key,
    match values !! key with
    | None => stored' !! key = stored !! key
    | Some value =>
        (stored !! key = None ∧ stored' !! key = Some value)
        ∨ (∃ old, stored !! key = Some old
             ∧ ((py_gt value old = Some true ∧ stored' !! key = Some value)
                ∨ (py_gt value old = Some false
                   ∧ stored' !! key = Some old)))
    end.
Proof.
  intros Hrun key. unfold record_max_values in Hrun.
  destruct (record_max_items_spec _ _ _ (NoDup_fst_map_to_list values)
              Hrun key) as [Hout Hin].
  destruct (values !! key) as [value|] eqn:Hv.
  - apply Hin. by apply elem_of_map_to_list.
  - apply Hout. intros ([k v] & -> & Hkv)%list_elem_of_fmap.
    apply elem_of_map_to_list in Hkv. simpl in Hv. congruence.
Qed.

(** C10.  Over any completed iteration of the loop, an entry of a
    domain's table of maximum values stays bound, and its new value is the
    old one or strictly greater.  An entry changes only for the domain of a
    retained instance, to the instance's value for that key (its parameters
    and [planner_runtime]), and only when the key was not bound or that
    value is strictly greater than the stored one. *)
Theorem C10_max_values_never_decrease destdir tables plan_dir fs tables' fs' :
  main_body destdir tables plan_dir fs = (Ok tables', fs') →
  ∀ dom key,
    (∀ old, entry (max_values tables) dom !! key = Some old →
       ∃ new, entry (max_values tables') dom !! key = Some new
              ∧ (new = old ∨ py_gt new old = Some true))
    ∧ (entry (max_values tables') dom !! key
         ≠ entry (max_values tables) dom !! key →
       ∃ props value,
         properties_json plan_dir = Some props
         ∧ planner_exitcode props = 0
         ∧ domain props = dom
         ∧ (<["planner_runtime" := runtime props]> (parameters props)) !! key
           = Some value
         ∧ entry (max_values tables') dom !! key = Some value
         ∧ (entry (max_values tables) dom !! key = None
            ∨ ∃ old, entry (max_values tables) dom !! key = Some old
                     ∧ py_gt value old = Some true)).
Proof.
  intros Hbody dom key.
  apply main_body_inv in Hbody
    as [(-> & -> & _)
       |(props & content & dt & maxima & cs & Hp & Hx & _ & _ & Hmax & _ & _
         & -> & _)].
  { split; [eauto|done]. }
  simpl. rewrite entry_insert. case_decide as Hd; [subst dom|].
  2:{ split; [eauto|done]. }
  pose proof (record_max_values_spec _ _ _ Hmax key) as Hkey.
  destruct ((<["planner_runtime" := runtime props]> (parameters props)) !! key)
    as [value|] eqn:Hv.
  - destruct Hkey as [[Hnone Hnew]
                     |(old & Hold & [[Hgt Hnew]|[Hgt Hnew]])].
    + split; [intros old; rewrite Hnone; done|].
      intros _. exists props, value. split_and!; auto.
    + split.
      * intros old' Hold'. rewrite Hold in Hold'. injection Hold' as <-.
        exists value. auto.
      * intros _. exists props, value. split_and!; eauto.
    + split.
      * intros old' Hold'. rewrite Hold in Hold'. injection Hold' as <-.
        exists old. auto.
      * intros Hne. congruence.
  - rewrite Hkey. split; [eauto|done].
Qed.

End CollectFacts.


(* ===================================================================== *)
(** * Properties of the generation loop *)
(* ===================================================================== *)

Import Generate.

Lemma float_lt_le a b : float_lt a b = true → float_le a b = true.
Proof.
  destruct a as [p| | |], b as [q| | |]; simpl; try done.
  by destruct (p ?= q)%Q.
Qed.

Lemma py_max_lower_bound b : float_le float_0_1 (py_max float_0_1 b) = true.
Proof.
  unfold py_max, float_gt.
  destruct (float_lt float_0_1 b) eqn:Hlt; [by apply float_lt_le|done].
Qed.

Lemma sort_keys_pyval_of_runtime runtime :
  sort_keys (pyval_of_runtime runtime) = pyval_of_runtime runtime.
Proof. by destruct runtime. Qed.

#[global] Instance key_le_total : Total key_le.
Proof. intros a b. apply str_le_total. Qed.

Section GenerateFacts.

Variable ARGS_domain : string.
Variable SMAC_RUN_DIR : string.
Variable adapt_parameters : gmap string pyval → result (gmap string pyval).
Variable generate_input_files :
  gmap string pyval → Z → string → io World string.
Variable run_planner : string → io World Z.
Variable float_of_string : string → option pyfloat.
Variable xz_compress : string → string.

Abbreviation results_of := (results_of ARGS_domain).
Abbreviation store_results := (store_results ARGS_domain).
Abbreviation stored := (stored ARGS_domain).
Abbreviation parse_runtime := (parse_runtime float_of_string).
Abbreviation xz_run_log := (xz_run_log xz_compress).
Abbreviation evaluate_configuration :=
  (evaluate_configuration ARGS_domain SMAC_RUN_DIR adapt_parameters
     generate_input_files run_planner float_of_string xz_compress).

(** ** The run record *)

Lemma sort_keys_results cfg seed exitcode runtime :
  sort_keys (results_of cfg seed exitcode runtime)
  = PDict [ ("domain", PStr ARGS_domain);
            ("parameters", sort_keys (PDict (map_to_list cfg)));
            ("planner_exitcode", PInt exitcode);
            ("runtime", pyval_of_runtime runtime);
            ("seed", PInt seed) ].
Proof. destruct runtime; reflexivity. Qed.

Lemma run_record_stored cfg seed plan_dir exitcode runtime w :
  run_record plan_dir (stored cfg seed plan_dir exitcode runtime w)
  = Some (sort_keys (results_of cfg seed exitcode runtime)).
Proof.
  unfold run_record, Generate.stored, Generate.store_results. simpl.
  apply lookup_insert_eq.
Qed.

Lemma sorted_object_names items key :
  key ∈ member_names (sort_keys (PDict items)) ↔ key ∈ items.*1.
Proof.
  simpl. rewrite (merge_sort_Permutation key_le), <- list_fmap_compose.
  rewrite !list_elem_of_fmap. split.
  - intros ([k v] & -> & Hin). by exists (k, v).
  - intros ([k v] & -> & Hin). by exists (k, v).
Qed.

(** The members of an object written in key order: those of the object,
    each value written in key order in turn, no key twice when the object
    comes from a dictionary. *)
Lemma sorted_dict_members (cfg : gmap string pyval) params :
  sort_keys (PDict (map_to_list cfg)) = PDict params →
  NoDup params.*1
  ∧ StronglySorted str_le params.*1
  ∧ ∀ key value,
      (key, value) ∈ params ↔ (sort_keys <$> cfg) !! key = Some value.
Proof.
  cbn [sort_keys]. intros [= <-]. split_and!.
  - rewrite (merge_sort_Permutation key_le), <- list_fmap_compose.
    assert (fst ∘ (λ kv : string * pyval, let (k, x) := kv in (k, sort_keys x))
              <$> map_to_list cfg
            = (map_to_list cfg).*1) as ->.
    { apply list_fmap_ext. by intros i [k x] _. }
    apply NoDup_fst_map_to_list.
  - apply (StronglySorted_fmap fst key_le); [done|].
    apply StronglySorted_merge_sort; [|apply _].
    intros x y z. apply str_le_trans.
  - intros key value.
    rewrite (merge_sort_Permutation key_le), list_elem_of_fmap, lookup_fmap.
    split.
    + intros ([k x] & [= -> ->] & Hin). apply elem_of_map_to_list in Hin.
      by rewrite Hin.
    + destruct (cfg !! key) as [x|] eqn:Hx; [|done]. intros [= <-].
      exists (key, x). split; [done|]. by apply elem_of_map_to_list.
Qed.

Lemma sort_keys_scalar v : is_scalar v = true → sort_keys v = v.
Proof. by destruct v. Qed.

(** C7, as the code has it.  The run record that [store_results] writes
    to [properties.json] is the object with the five members [domain],
    [parameters], [planner_exitcode], [runtime] and [seed], in this order
    and with these values: the domain of the command line as a string, the
    exit code and the seed as integers, the runtime as a float or null,
    all four scalars, and under [parameters] an object that holds the
    configuration: one member for each key of the configuration, no key
    twice, keys ascending, each key with the value the configuration gives
    it (an object among the values written in key order in turn).  So the
    record is not flat.  When the values of the configuration are scalars,
    the members of [parameters] are the entries of the configuration as
    they are, and [parameters] is a flat object: the record is nested one
    level. *)
Theorem C7_run_record_members cfg seed plan_dir exitcode runtime w :
  ∃ doc params,
    run_record plan_dir (stored cfg seed plan_dir exitcode runtime w)
    = Some doc
    ∧ member_names doc
      = ["domain"; "parameters"; "planner_exitcode"; "runtime"; "seed"]
    ∧ member "domain" doc = Some (PStr ARGS_domain)
    ∧ member "parameters" doc = Some (PDict params)
    ∧ (∀ key, key ∈ params.*1 ↔ is_Some (cfg !! key))
    ∧ member "planner_exitcode" doc = Some (PInt exitcode)
    ∧ member "runtime" doc = Some (pyval_of_runtime runtime)
    ∧ member "seed" doc = Some (PInt seed)
    ∧ doc = PDict [ ("domain", PStr ARGS_domain);
                    ("parameters", PDict params);
                    ("planner_exitcode", PInt exitcode);
                    ("runtime", pyval_of_runtime runtime);
                    ("seed", PInt seed) ]
    ∧ is_scalar (PStr ARGS_domain) = true
    ∧ is_scalar (PInt exitcode) = true
    ∧ is_scalar (pyval_of_runtime runtime) = true
    ∧ is_scalar (PInt seed) = true
    ∧ is_flat_object doc = false
    ∧ NoDup params.*1
    ∧ StronglySorted str_le params.*1
    ∧ (∀ key value,
         (key, value) ∈ params
         ↔ ∃ given, cfg !! key = Some given ∧ value = sort_keys given)
    ∧ ((∀ key given, cfg !! key = Some given → is_scalar given = true) →
       (∀ key value, (key, value) ∈ params ↔ cfg !! key = Some value)
       ∧ is_flat_object (PDict params) = true).
Proof.
  destruct (sort_keys (PDict (map_to_list cfg))) as [| | | | |params] eqn:Hparams;
    try (cbn [sort_keys] in Hparams; discriminate).
  destruct (sorted_dict_members cfg params Hparams)
    as (Hnodup & Hsorted & Hmembers).
  assert (∀ key value,
            (key, value) ∈ params
            ↔ ∃ given, cfg !! key = Some given ∧ value = sort_keys given)
    as Hvalues.
  { intros key value. rewrite Hmembers, lookup_fmap.
    destruct (cfg !! key) as [given|]; simpl; split.
    - intros [= <-]. eauto.
    - by intros (g & [= <-] & ->).
    - done.
    - by intros (g & ? & _). }
  exists (PDict [ ("domain", PStr ARGS_domain);
                  ("parameters", PDict params);
                  ("planner_exitcode", PInt exitcode);
                  ("runtime", pyval_of_runtime runtime);
                  ("seed", PInt seed) ]), params.
  rewrite run_record_stored, sort_keys_results, Hparams.
  split_and!; try reflexivity; try done.
  - intros key. rewrite list_elem_of_fmap. split.
    + intros ([k v] & -> & Hin). apply Hvalues in Hin as (given & Hg & _).
      by exists given.
    + intros [given Hg]. exists (key, sort_keys given). split; [done|].
      apply Hvalues. eauto.
  - by destruct runtime.
  - intros Hscalar.
    assert (∀ key value, (key, value) ∈ params ↔ cfg !! key = Some value)
      as Hsame.
    { intros key value. rewrite Hvalues. split.
      - intros (given & Hg & ->).
        by rewrite (sort_keys_scalar given (Hscalar key given Hg)).
      - intros Hg. exists value. split; [done|].
        by rewrite (sort_keys_scalar value (Hscalar key value Hg)). }
    split; [done|]. cbn [is_flat_object]. apply forallb_forall.
    intros [key value] Hin. apply list_elem_of_In, Hsame in Hin.
    by apply (Hscalar key).
Qed.

(** ** One evaluation *)

Lemma parse_runtime_inv plan_dir w r w' :
  parse_runtime plan_dir w = (Ok r, w') →
  w' = w
  ∧ ∃ output group parsed,
      texts w !! (plan_dir // "run.log") = Some output
      ∧ search_runtime output = Some group
      ∧ float_of_string group = Some parsed
      ∧ r = py_max float_0_1 parsed.
Proof.
  unfold Generate.parse_runtime.
  destruct (texts w !! (plan_dir // "run.log")) as [output|]; [|done].
  destruct (search_runtime output) as [group|] eqn:Hgroup; [|done].
  destruct (float_of_string group) as [parsed|] eqn:Hfloat; [|done].
  intros [= <- <-]. split; [done|]. by exists output, group, parsed.
Qed.

Lemma parse_runtime_found plan_dir w output group parsed :
  texts w !! (plan_dir // "run.log") = Some output →
  search_runtime output = Some group →
  float_of_string group = Some parsed →
  parse_runtime plan_dir w = (Ok (py_max float_0_1 parsed), w).
Proof.
  intros Hlog Hgroup Hfloat. unfold Generate.parse_runtime.
  by rewrite Hlog, Hgroup, Hfloat.
Qed.

Lemma show_error_log_spec plan_dir w : show_error_log plan_dir w = (Ok tt, w).
Proof.
  unfold show_error_log. by destruct (texts w !! (plan_dir // "run.err")).
Qed.

Lemma xz_run_log_spec plan_dir w :
  (xz_run_log plan_dir w).1 = Ok tt
  ∧ json_files (xz_run_log plan_dir w).2 = json_files w.
Proof.
  unfold Generate.xz_run_log.
  destruct (texts w !! (plan_dir // "run.log")); [|done].
  by destruct (texts w !! (plan_dir // "run.log.xz")).
Qed.

(** The world after the record is stored and the log compressed. *)
Lemma run_record_after_xz cfg seed plan_dir exitcode runtime w :
  run_record plan_dir
    (xz_run_log plan_dir (stored cfg seed plan_dir exitcode runtime w)).2
  = Some (sort_keys (results_of cfg seed exitcode runtime)).
Proof.
  unfold run_record at 1.
  rewrite (proj2 (xz_run_log_spec plan_dir _)).
  apply run_record_stored.
Qed.

(** An evaluation whose configuration is legal, whose input files are
    generated and whose planner run returns. *)
Lemma evaluate_planned cfg0 cfg seed plan_dir exitcode w w1 w2 :
  adapt_parameters cfg0 = Ok cfg →
  generate_input_files cfg seed (SMAC_RUN_DIR // TMP_PLAN_DIR) w
  = (Ok plan_dir, w1) →
  run_planner plan_dir w1 = (Ok exitcode, w2) →
  evaluate_configuration cfg0 seed w =
  if (exitcode =? 0)%Z then
    match parse_runtime plan_dir w2 with
    | (Ok r, w3) =>
        (Ok (PFloat (float_neg r)),
         (xz_run_log plan_dir
            (stored cfg seed plan_dir exitcode (Some r) w3)).2)
    | (Raise e, w3) => (Raise e, w3)
    end
  else
    (Ok (PInt 100),
     (xz_run_log plan_dir (stored cfg seed plan_dir exitcode None w2)).2).
Proof.
  intros Hadapt Hgen Hrun. unfold Generate.evaluate_configuration.
  rewrite Hadapt, Hgen. unfold bind at 1. rewrite Hrun.
  destruct (exitcode =? 0)%Z.
  - unfold bind at 1. unfold bind at 1.
    destruct (Generate.parse_runtime float_of_string plan_dir w2)
      as [[r|e] w3]; [|done].
    unfold ret at 1. unfold bind. unfold Generate.store_results at 1.
    rewrite show_error_log_spec.
    pose proof (xz_run_log_spec plan_dir
                  (stored cfg seed plan_dir exitcode (Some r) w3)) as [Hok _].
    unfold Generate.stored, Generate.store_results in Hok. simpl in Hok.
    destruct (Generate.xz_run_log _ _ _) as [[[]|e] w4] eqn:Hxz;
      simpl in Hok; [|done].
    done.
  - unfold bind at 1. unfold ret at 1. unfold bind.
    unfold Generate.store_results at 1.
    rewrite show_error_log_spec.
    pose proof (xz_run_log_spec plan_dir
                  (stored cfg seed plan_dir exitcode None w2)) as [Hok _].
    unfold Generate.stored, Generate.store_results in Hok. simpl in Hok.
    destruct (Generate.xz_run_log _ _ _) as [[[]|e] w4] eqn:Hxz;
      simpl in Hok; [|done].
    done.
Qed.

Lemma member_runtime_results cfg seed exitcode runtime :
  member "runtime" (sort_keys (results_of cfg seed exitcode runtime))
  = Some (pyval_of_runtime runtime).
Proof. by rewrite sort_keys_results. Qed.

(** C8.  For a planner run with exit code 0 the runtime found in the run
    log is replaced by 0.1 unless it is greater; the value so obtained is
    at least 0.1, it is the [runtime] of the run record, and its negation
    is the score returned.  For a run with another exit code the [runtime]
    of the run record is null. *)
Theorem C8_recorded_runtime_clamped cfg0 cfg seed plan_dir exitcode w w1 w2 :
  adapt_parameters cfg0 = Ok cfg →
  generate_input_files cfg seed (SMAC_RUN_DIR // TMP_PLAN_DIR) w
  = (Ok plan_dir, w1) →
  run_planner plan_dir w1 = (Ok exitcode, w2) →
  (exitcode = 0 →
   ∀ output group parsed,
     texts w2 !! (plan_dir // "run.log") = Some output →
     search_runtime output = Some group →
     float_of_string group = Some parsed →
     ∃ r w' doc,
       r = (if float_gt parsed float_0_1 then parsed else float_0_1)
       ∧ float_le float_0_1 r = true
       ∧ evaluate_configuration cfg0 seed w = (Ok (PFloat (float_neg r)), w')
       ∧ run_record plan_dir w' = Some doc
       ∧ member "runtime" doc = Some (PFloat r))
  ∧ (exitcode ≠ 0 →
     ∃ w' doc,
       evaluate_configuration cfg0 seed w = (Ok (PInt 100), w')
       ∧ run_record plan_dir w' = Some doc
       ∧ member "runtime" doc = Some PNone).
Proof.
  intros Hadapt Hgen Hrun.
  pose proof (evaluate_planned _ _ seed _ _ _ _ _ Hadapt Hgen Hrun) as Heval.
  split.
  - intros -> output group parsed Hlog Hgroup Hfloat.
    rewrite (parse_runtime_found _ _ _ _ _ Hlog Hgroup Hfloat) in Heval.
    simpl in Heval. eexists _, _, _. split_and!.
    + reflexivity.
    + apply py_max_lower_bound.
    + exact Heval.
    + apply run_record_after_xz.
    + apply member_runtime_results.
  - intros Hx. apply Z.eqb_neq in Hx. rewrite Hx in Heval.
    eexists _, _. split_and!.
    + exact Heval.
    + apply run_record_after_xz.
    + apply member_runtime_results.
Qed.

End GenerateFacts.

(* ===================================================================== *)
(** * Failures in both programs *)
(* ===================================================================== *)

Section FailureFacts.

Variable md5_hexdigest : string → string.
Variable join_parameters : gmap string pyval → string.
Variable ARGS_domain : string.
Variable SMAC_RUN_DIR : string.
Variable adapt_parameters : gmap string pyval → result (gmap string pyval).
Variable generate_input_files :
  gmap string pyval → Z → string → io World string.
Variable run_planner : string → io World Z.
Variable float_of_string : string → option pyfloat.
Variable xz_compress : string → string.

Abbreviation evaluate_configuration :=
  (evaluate_configuration ARGS_domain SMAC_RUN_DIR adapt_parameters
     generate_input_files run_planner float_of_string xz_compress).
Abbreviation main_body := (main_body md5_hexdigest join_parameters).
Abbreviation main_loop := (main_loop md5_hexdigest join_parameters).

(** C3.  [evaluate_configuration] returns the score 100, and does not
    raise, when the configuration is illegal, when the generator fails,
    and when the planner returns a non-zero exit code.  In the collection
    pass a plan directory without [properties.json] changes nothing and the
    loop goes on with the next plan directory. *)
Theorem C3_failures_give_penalty_or_skip :
  (∀ cfg seed w,
     adapt_parameters cfg = Raise IllegalConfiguration →
     evaluate_configuration cfg seed w = (Ok (PInt 100), w))
  ∧ (∀ cfg0 cfg seed w w1,
       adapt_parameters cfg0 = Ok cfg →
       generate_input_files cfg seed (SMAC_RUN_DIR // TMP_PLAN_DIR) w
       = (Raise CalledProcessError, w1) →
       evaluate_configuration cfg0 seed w = (Ok (PInt 100), w1))
  ∧ (∀ cfg0 cfg seed plan_dir exitcode w w1 w2,
       adapt_parameters cfg0 = Ok cfg →
       generate_input_files cfg seed (SMAC_RUN_DIR // TMP_PLAN_DIR) w
       = (Ok plan_dir, w1) →
       run_planner plan_dir w1 = (Ok exitcode, w2) →
       exitcode ≠ 0 →
       ∃ w', evaluate_configuration cfg0 seed w = (Ok (PInt 100), w'))
  ∧ (∀ destdir tables plan_dir rest fs,
       properties_json plan_dir = None →
       main_body destdir tables plan_dir fs = (Ok tables, fs)
       ∧ main_loop destdir tables (plan_dir :: rest) fs
         = main_loop destdir tables rest fs).
Proof.
  split_and!.
  - intros cfg seed w Hadapt. unfold Generate.evaluate_configuration.
    by rewrite Hadapt.
  - intros cfg0 cfg seed w w1 Hadapt Hgen.
    unfold Generate.evaluate_configuration. by rewrite Hadapt, Hgen.
  - intros cfg0 cfg seed plan_dir exitcode w w1 w2 Hadapt Hgen Hrun Hx.
    rewrite (evaluate_planned ARGS_domain SMAC_RUN_DIR adapt_parameters
               generate_input_files run_planner float_of_string xz_compress
               _ _ seed _ _ _ _ _ Hadapt Hgen Hrun).
    apply Z.eqb_neq in Hx. rewrite Hx. by eexists.
  - intros destdir tables plan_dir rest fs Hp.
    pose proof (main_body_missing md5_hexdigest join_parameters destdir
                  tables plan_dir fs Hp) as Hskip.
    split; [done|]. simpl. unfold bind. by rewrite Hskip.
Qed.

End FailureFacts.

(* ===================================================================== *)
(** * Further properties of the collection pass *)
(* ===================================================================== *)

Section CollectErrors.

Variable md5_hexdigest : string → string.
Variable join_parameters : gmap string pyval → string.

Abbreviation main_body := (main_body md5_hexdigest join_parameters).
Abbreviation main_loop := (main_loop md5_hexdigest join_parameters).
Abbreviation main := (main md5_hexdigest join_parameters).
Abbreviation retained_tables := (retained_tables md5_hexdigest).
Abbreviation retained_fs := (retained_fs join_parameters).
Abbreviation hashed_before := (hashed_before md5_hexdigest).
Abbreviation problem_name_of := (problem_name_of join_parameters).

(** X1.  The pass stops at the first plan directory whose iteration
    raises: the exception and the destination of that moment are the
    result, whatever plan directories follow. *)
Theorem pass_stops_at_first_error destdir earlier plan_dir later tables
    fs0 fs e fs' :
  main destdir earlier fs0 = (Ok tables, fs) →
  main_body destdir tables plan_dir fs = (Raise e, fs') →
  main destdir (earlier ++ plan_dir :: later)%list fs0 = (Raise e, fs').
Proof.
  unfold Collect.main. intros Hpre Hbody.
  rewrite (main_loop_app md5_hexdigest join_parameters), Hpre.
  simpl. unfold bind. by rewrite Hbody.
Qed.

(** X2.  A record with exit code 0 whose plan directory has no
    [problem.pddl] is not skipped: the iteration raises
    [FileNotFoundError], before anything is written. *)
Theorem missing_problem_file_raises destdir tables plan_dir props fs :
  properties_json plan_dir = Some props →
  planner_exitcode props = 0 →
  problem_pddl plan_dir = None →
  main_body destdir tables plan_dir fs = (Raise FileNotFoundError, fs).
Proof.
  intros Hp Hx Hc.
  rewrite (main_body_unfold md5_hexdigest join_parameters), Hp, Hc.
  by rewrite decide_True.
Qed.

(** X3.  When the [domain.pddl] of an instance about to be retained is
    missing, the iteration raises [FileNotFoundError] after the target
    directory is made and the problem file copied; the domain file and the
    README of the destination are as they were. *)
Theorem missing_domain_file_leaves_partial_copy destdir tables plan_dir props
    content maxima counts fs :
  properties_json plan_dir = Some props →
  planner_exitcode props = 0 →
  problem_pddl plan_dir = Some content →
  md5_hexdigest content ∉ entry (seen_task_hashes tables) (domain props) →
  record_max_values
    (<["planner_runtime" := runtime props]> (parameters props))
    (entry (max_values tables) (domain props)) = Ok maxima →
  record_runtime (entry (seen_runtimes tables) (domain props))
    (runtime props) = Ok counts →
  domain_pddl plan_dir = None →
  ∃ fs',
    main_body destdir tables plan_dir fs = (Raise FileNotFoundError, fs')
    ∧ destdir // domain props ∈ dirs fs'
    ∧ files fs' !! (destdir // domain props // problem_name_of props)
      = Some content
    ∧ files fs' !! (destdir // domain props // "domain.pddl")
      = files fs !! (destdir // domain props // "domain.pddl")
    ∧ files fs' !! (destdir // domain props // "README")
      = files fs !! (destdir // domain props // "README").
Proof.
  intros Hp Hx Hc Hnew Hmax Hrt Hdom. eexists.
  rewrite (main_body_unfold md5_hexdigest join_parameters),
    Hp, Hc, Hmax, Hrt, Hdom.
  rewrite decide_True by done. rewrite decide_False by done.
  split; [reflexivity|]. simpl. split_and!.
  - set_solver.
  - apply lookup_insert_eq.
  - apply lookup_insert_ne. intros Heq. apply path_join_inj in Heq.
    by apply (problem_name_not_domain join_parameters props).
  - apply lookup_insert_ne. intros Heq. apply path_join_inj in Heq.
    by apply (problem_name_not_readme join_parameters props).
Qed.

(** Every exception of [record_max_values] is a [TypeError]. *)
Lemma record_max_items_raises items stored e :
  record_max_items items stored = Raise e → e = TypeError.
Proof.
  revert stored. induction items as [|[k v] items IH]; intros stored; [done|].
  cbn [record_max_items].
  destruct (record_max_value stored (k, v)) as [stored1|e1] eqn:Hone.
  - cbn [result_bind]. apply IH.
  - cbn [result_bind]. intros [= <-]. unfold record_max_value in Hone.
    destruct (stored !! k) as [old|]; [|done].
    by destruct (py_gt v old) as [[]|]; try done; injection Hone as <-.
Qed.

Lemma py_le_not_number runtime (b : Z) :
  as_number runtime = None → py_le runtime (PInt b) = None.
Proof. intros Hn. unfold py_le. rewrite Hn. by destruct runtime. Qed.

Lemma record_runtime_not_number counts runtime :
  as_number runtime = None → record_runtime counts runtime = Raise TypeError.
Proof.
  intros Hn. unfold record_runtime, RUNTIME_BOUNDS. simpl.
  by rewrite py_le_not_number.
Qed.

(** X4.  A record with exit code 0 whose [runtime] is no number (null, a
    string) is not skipped either: for a problem not seen before, the
    iteration raises [TypeError] and writes nothing. *)
Theorem non_numeric_runtime_raises destdir tables plan_dir props content fs :
  properties_json plan_dir = Some props →
  planner_exitcode props = 0 →
  problem_pddl plan_dir = Some content →
  md5_hexdigest content ∉ entry (seen_task_hashes tables) (domain props) →
  as_number (runtime props) = None →
  main_body destdir tables plan_dir fs = (Raise TypeError, fs).
Proof.
  intros Hp Hx Hc Hnew Hn.
  rewrite (main_body_unfold md5_hexdigest join_parameters), Hp, Hc.
  rewrite decide_True by done. rewrite decide_False by done.
  destruct (record_max_values _ _) as [maxima|e] eqn:Hmax.
  - by rewrite record_runtime_not_number.
  - unfold record_max_values in Hmax.
    by rewrite (record_max_items_raises _ _ _ Hmax).
Qed.

End CollectErrors.

(** ** Order facts *)

Lemma float_lt_trans a b c :
  float_lt a b = true → float_lt b c = true → float_lt a c = true.
Proof.
  destruct a as [p| | |], b as [q| | |], c as [r| | |]; simpl; try done.
  destruct (p ?= q)%Q eqn:Hpq; try done.
  destruct (q ?= r)%Q eqn:Hqr; try done.
  intros _ _. apply Qlt_alt in Hpq, Hqr.
  by rewrite (proj1 (Qlt_alt p r) (Qlt_trans _ _ _ Hpq Hqr)).
Qed.

Lemma string_ltb_trans a b c :
  String.ltb a b = true → String.ltb b c = true → String.ltb a c = true.
Proof.
  unfold String.ltb.
  destruct (String.compare a b) eqn:Hab; try done.
  destruct (String.compare b c) eqn:Hbc; try done.
  intros _ _.
  pose proof (@transitivity _ _
                (@StrictOrder_Transitive _ _ String_as_OT.lt_strorder)
                a b c Hab Hbc) as Hac.
  change (String.compare a c = Lt) in Hac. by rewrite Hac.
Qed.

Lemma py_gt_trans a b c :
  py_gt a b = Some true → py_gt b c = Some true → py_gt a c = Some true.
Proof.
  unfold py_gt, float_gt. intros Hab Hbc.
  destruct (as_number a) as [x|] eqn:Ha, (as_number b) as [y|] eqn:Hb.
  - destruct (as_number c) as [z|] eqn:Hc; [|by destruct b, c].
    assert (float_lt y x = true) as Hyx by congruence.
    assert (float_lt z y = true) as Hzy by congruence.
    by rewrite (float_lt_trans z y x).
  - by destruct a, b.
  - by destruct a, b.
  - destruct a as [| | | |s|], b as [| | | |t|]; try done.
    destruct c as [| | | |u|]; try done. simpl in *.
    assert (String.ltb t s = true) as Hts by congruence.
    assert (String.ltb u t = true) as Hut by congruence.
    by rewrite (string_ltb_trans u t s).
Qed.

Lemma not_below_refl v : not_below v v.
Proof. by left. Qed.

Lemma not_below_trans a b c : not_below a b → not_below b c → not_below a c.
Proof.
  intros [-> | Hab] [-> | Hbc]; [by left|by right|by right|].
  right. by apply py_gt_trans with b.
Qed.

(** ** Bucket totals *)

Lemma total_count_empty : total_count ∅ = 0.
Proof. unfold total_count. apply map_fold_empty. Qed.

Lemma total_count_insert_new (counts : gmap Z Z) b n :
  counts !! b = None →
  total_count (<[b := n]> counts) = n + total_count counts.
Proof.
  intros Hb. unfold total_count.
  rewrite map_fold_insert_L; [done| |done].
  intros. lia.
Qed.

Lemma total_count_insert (counts : gmap Z Z) b n :
  total_count (<[b := n]> counts)
  = n + total_count counts - default 0 (counts !! b).
Proof.
  destruct (counts !! b) as [m|] eqn:Hb; simpl.
  - rewrite <- (insert_delete_eq counts b n).
    rewrite total_count_insert_new by apply lookup_delete_eq.
    rewrite <- (insert_delete_id counts b m Hb) at 2.
    rewrite total_count_insert_new by apply lookup_delete_eq. lia.
  - rewrite total_count_insert_new by done. lia.
Qed.

(** ** The table of maximum values, on its own *)

(** X8.  After [record_max_values] succeeds, the table binds the keys it
    bound before and the keys of the instance, no others; for each key of
    the instance the stored value is the instance's value or one the
    instance's value is not greater than; keys the instance lacks keep
    their values. *)
Theorem record_max_values_bounds_instance values stored stored' :
  record_max_values values stored = Ok stored' →
  dom stored' = dom stored ∪ dom values
  ∧ (∀ key value, values !! key = Some value →
       ∃ top, stored' !! key = Some top
              ∧ (top = value ∨ py_gt value top = Some false))
  ∧ (∀ key, values !! key = None → stored' !! key = stored !! key).
Proof.
  intros Hrun.
  pose proof (record_max_values_spec values stored stored' Hrun) as Hspec.
  split_and!.
  - apply set_eq. intros key. rewrite elem_of_union, !elem_of_dom.
    specialize (Hspec key).
    destruct (values !! key) as [value|] eqn:Hv.
    + destruct Hspec as [[Hnone ->]|(old & -> & [[_ ->]|[_ ->]])];
        split; eauto.
    + rewrite Hspec. split; [auto|]. intros [|[? ?]]; done.
  - intros key value Hv. specialize (Hspec key). rewrite Hv in Hspec.
    destruct Hspec as [[_ ->]|(old & _ & [[_ ->]|[Hgt ->]])]; eauto.
  - intros key Hv. specialize (Hspec key). by rewrite Hv in Hspec.
Qed.

Lemma record_max_items_fresh items stored :
  NoDup items.*1 →
  (∀ key, key ∈ items.*1 → stored !! key = None) →
  record_max_items items stored = Ok (list_to_map items ∪ stored).
Proof.
  revert stored. induction items as [|[k v] items IH]; intros stored Hnd Hfresh.
  - simpl. by rewrite (left_id_L ∅ (∪) stored).
  - rewrite fmap_cons in Hnd. apply NoDup_cons in Hnd as [Hk Hnd].
    cbn [record_max_items]. unfold record_max_value.
    rewrite (Hfresh k) by (rewrite fmap_cons; by left).
    cbn [result_bind]. rewrite IH; [|done|].
    + f_equal. simpl. rewrite <- insert_union_r.
      * by rewrite insert_union_l.
      * by apply not_elem_of_list_to_map_1.
    + intros key Hin. rewrite lookup_insert_ne.
      * apply Hfresh. rewrite fmap_cons. by right.
      * by intros ->.
Qed.

Lemma record_max_values_fresh values stored :
  (∀ key, is_Some (values !! key) → stored !! key = None) →
  record_max_values values stored = Ok (values ∪ stored).
Proof.
  intros Hfresh. unfold record_max_values.
  rewrite record_max_items_fresh.
  - by rewrite list_to_map_to_list.
  - apply NoDup_fst_map_to_list.
  - intros key ([k v] & -> & Hin)%list_elem_of_fmap.
    apply elem_of_map_to_list in Hin. apply Hfresh. by exists v.
Qed.

(** X9.  A key the table does not bind yet is stored without any
    comparison: when none of the instance's keys is bound, the call
    succeeds whatever the values are, and the table gains exactly the
    instance's entries. *)
Theorem record_max_values_stores_new_keys_unchecked values stored :
  (∀ key, is_Some (values !! key) → stored !! key = None) →
  record_max_values values stored = Ok (values ∪ stored).
Proof. apply record_max_values_fresh. Qed.

Lemma record_max_items_unorderable items stored key value old :
  NoDup items.*1 →
  (key, value) ∈ items →
  stored !! key = Some old →
  py_gt value old = None →
  record_max_items items stored = Raise TypeError.
Proof.
  revert stored. induction items as [|[k v] items IH];
    intros stored Hnd Hin Hold Hgt.
  - by apply elem_of_nil in Hin.
  - rewrite fmap_cons in Hnd. apply NoDup_cons in Hnd as [Hk Hnd].
    cbn [record_max_items].
    apply elem_of_cons in Hin as [[= <- <-]|Hin].
    + unfold record_max_value. by rewrite Hold, Hgt.
    + assert (key ≠ k) as Hne.
      { intros ->. apply Hk. apply list_elem_of_fmap. by exists (k, value). }
      destruct (record_max_value stored (k, v)) as [stored1|e] eqn:Hone.
      * cbn [result_bind]. apply IH; try done.
        apply record_max_value_spec in Hone as [Hothers _].
        by rewrite (Hothers key Hne).
      * cbn [result_bind]. f_equal.
        apply (record_max_items_raises [(k, v)] stored).
        cbn [record_max_items]. by rewrite Hone.
Qed.

(** X10.  When the table binds a key of the instance to a value that the
    instance's value cannot be compared with (null against a number, a
    string against a number), [record_max_values] raises [TypeError]. *)
Theorem record_max_values_unorderable_raises values stored key value old :
  values !! key = Some value →
  stored !! key = Some old →
  py_gt value old = None →
  record_max_values values stored = Raise TypeError.
Proof.
  intros Hv Hold Hgt. unfold record_max_values.
  apply (record_max_items_unorderable _ _ key value old); try done.
  - apply NoDup_fst_map_to_list.
  - by apply elem_of_map_to_list.
Qed.

Section CollectInvariants.

Variable md5_hexdigest : string → string.
Variable join_parameters : gmap string pyval → string.

Abbreviation main_body := (main_body md5_hexdigest join_parameters).
Abbreviation main_loop := (main_loop md5_hexdigest join_parameters).
Abbreviation main := (main md5_hexdigest join_parameters).
Abbreviation retained_tables := (retained_tables md5_hexdigest).
Abbreviation retained_fs := (retained_fs join_parameters).
Abbreviation hashed_before := (hashed_before md5_hexdigest).
Abbreviation problem_name_of := (problem_name_of join_parameters).

(** What every completed iteration keeps, the whole loop keeps. *)
Lemma main_loop_preserves (P : Tables → Prop) destdir :
  (∀ tables plan_dir fs tables' fs',
     P tables → main_body destdir tables plan_dir fs = (Ok tables', fs') →
     P tables') →
  ∀ plan_dirs tables fs tables' fs',
    P tables → main_loop destdir tables plan_dirs fs = (Ok tables', fs') →
    P tables'.
Proof.
  intros Hstep plan_dirs.
  induction plan_dirs as [|pd plan_dirs IH]; intros tables fs tables' fs' HP.
  - by intros [= <- <-].
  - simpl. unfold bind.
    destruct (main_body destdir tables pd fs) as [[t1|e] fs1] eqn:Hbody;
      [|done].
    apply IH. by apply (Hstep tables pd fs t1 fs1).
Qed.

Lemma entry_nonempty_bound {V} `{Empty V} (d : gmap string V) key :
  entry d key ≠ ∅ → is_Some (d !! key).
Proof. unfold entry. destruct (d !! key); [eauto|done]. Qed.

(** ** The domains of the three tables *)

Lemma main_body_aligned destdir tables plan_dir fs tables' fs' :
  tables_aligned tables →
  main_body destdir tables plan_dir fs = (Ok tables', fs') →
  tables_aligned tables'.
Proof.
  intros Haligned Hbody.
  apply (main_body_inv md5_hexdigest join_parameters) in Hbody
    as [(Heq & _)|(props & content & dt & mx & cs & _ & _ & _ & _ & _ & _ & _
                   & Heq & _)]; subst tables'; [done|].
  destruct Haligned as (Hmax & Hrt & Hne).
  unfold Collect.retained_tables, tables_aligned. simpl.
  rewrite !dom_insert_L, Hmax, Hrt. split_and!; try done.
  intros dom_name digests.
  rewrite lookup_insert. case_decide; [|apply Hne].
  intros Heq. injection Heq as Heq. rewrite <- Heq. intros Hempty.
  apply (not_elem_of_empty (C:=gset string) (md5_hexdigest content)).
  rewrite <- Hempty. apply elem_of_union_r. by apply elem_of_singleton.
Qed.

Lemma tables_aligned_after_pass destdir plan_dirs fs0 tables fs :
  main destdir plan_dirs fs0 = (Ok tables, fs) → tables_aligned tables.
Proof.
  intros Hmain. unfold Collect.main in Hmain.
  apply (main_loop_preserves tables_aligned destdir
           (main_body_aligned destdir) plan_dirs empty_tables fs0 tables fs);
    [|done].
  unfold tables_aligned, empty_tables. simpl.
  rewrite !dom_empty_L. split_and!; done.
Qed.

Lemma tables_share_domains_after_pass destdir plan_dirs fs0 tables fs :
  main destdir plan_dirs fs0 = (Ok tables, fs) →
  dom (max_values tables) = dom (seen_task_hashes tables)
  ∧ dom (seen_runtimes tables) = dom (seen_task_hashes tables)
  ∧ ∀ dom_name,
      dom_name ∈ dom (seen_task_hashes tables)
      ↔ ∃ digest, hashed_before plan_dirs dom_name digest.
Proof.
  intros Hmain.
  destruct (tables_aligned_after_pass _ _ _ _ _ Hmain) as (Hmax & Hrt & Hne).
  unfold Collect.main in Hmain.
  split_and!; try done. intros dom_name.
  pose proof (main_loop_seen md5_hexdigest join_parameters _ _ _ _ _ _ Hmain
                dom_name) as Hseen.
  rewrite elem_of_dom. split.
  - intros [digests Hd]. pose proof (Hne _ _ Hd) as Hnonempty.
    apply set_choose_L in Hnonempty as [digest Hin].
    exists digest.
    destruct (proj1 (Hseen digest)) as [Hempty|Hhashed]; [|by set_solver|done].
    unfold entry. by rewrite Hd.
  - intros [digest Hhashed]. apply entry_nonempty_bound.
    intros Hempty. pose proof (proj2 (Hseen digest) (or_intror Hhashed)) as Hin.
    rewrite Hempty in Hin. set_solver.
Qed.

(** X5.  After a completed pass the three tables have the same domains:
    a domain has a table of maximum values and a table of bucket counts
    exactly when it has digests, and it has digests exactly when the record
    of some plan directory names it with exit code 0 and an existing
    problem file. *)
Theorem tables_share_their_domains destdir plan_dirs fs0 tables fs :
  main destdir plan_dirs fs0 = (Ok tables, fs) →
  dom (max_values tables) = dom (seen_task_hashes tables)
  ∧ dom (seen_runtimes tables) = dom (seen_task_hashes tables)
  ∧ ∀ dom_name,
      dom_name ∈ dom (seen_task_hashes tables)
      ↔ ∃ digest, hashed_before plan_dirs dom_name digest.
Proof. apply tables_share_domains_after_pass. Qed.

(** ** Bucket counts against digests *)

Lemma record_runtime_ok_number counts runtime counts' :
  record_runtime counts runtime = Ok counts' →
  ∃ x, as_number runtime = Some x.
Proof.
  destruct (as_number runtime) as [x|] eqn:Hn; [eauto|].
  by rewrite record_runtime_not_number.
Qed.

Lemma record_runtime_shape counts runtime counts' :
  record_runtime counts runtime = Ok counts' →
  counts' = counts
  ∨ ∃ bound, bound ∈ RUNTIME_BOUNDS
             ∧ counts' = <[bound := default 0 (counts !! bound) + 1]> counts.
Proof.
  intros Hrun. destruct (record_runtime_ok_number _ _ _ Hrun) as [x Hx].
  unfold record_runtime in Hrun.
  destruct (record_runtime_from_spec RUNTIME_BOUNDS counts runtime x Hx)
    as [(skipped & bound & rest & Hsplit & _ & _ & Hres)|[_ Hres]];
    rewrite Hres in Hrun; injection Hrun as <-; [|by left].
  right. exists bound. split; [|done].
  rewrite Hsplit. apply elem_of_app. right. by left.
Qed.

Lemma buckets_bounded_step (counts counts' : gmap Z Z) (tasks : Z) runtime :
  record_runtime counts runtime = Ok counts' →
  (total_count counts ≤ tasks)%Z →
  (∀ b n, counts !! b = Some n → b ∈ RUNTIME_BOUNDS ∧ (1 ≤ n)%Z) →
  (total_count counts' ≤ tasks + 1)%Z
  ∧ (∀ b n, counts' !! b = Some n → b ∈ RUNTIME_BOUNDS ∧ (1 ≤ n)%Z).
Proof.
  intros Hrun Htotal Hkeys.
  apply record_runtime_shape in Hrun as [-> |(bound & Hin & ->)].
  { split; [lia|done]. }
  split.
  - rewrite total_count_insert. lia.
  - intros b n. rewrite lookup_insert. case_decide as Hb.
    + intros [= <-]. subst b. split; [done|].
      destruct (counts !! bound) as [m|] eqn:Hm; simpl; [|lia].
      destruct (Hkeys _ _ Hm). lia.
    + apply Hkeys.
Qed.

Lemma buckets_bounded_body destdir tables plan_dir fs tables' fs' :
  buckets_bounded tables →
  main_body destdir tables plan_dir fs = (Ok tables', fs') →
  buckets_bounded tables'.
Proof.
  intros Hinv Hbody.
  apply (main_body_inv md5_hexdigest join_parameters) in Hbody
    as [(Heq & _)|(props & content & dt & mx & cs & _ & _ & _ & Hnew & _
                   & Hrt & _ & Heq & _)]; subst tables'; [done|].
  intros dom_name. unfold Collect.retained_tables. simpl.
  rewrite !entry_insert. case_decide as Hd; [subst dom_name|apply Hinv].
  destruct (Hinv (domain props)) as [Htotal Hkeys].
  destruct (buckets_bounded_step _ _ _ _ Hrt Htotal Hkeys) as [Htotal' Hkeys'].
  split; [|done].
  rewrite size_union by (by apply disjoint_singleton_r).
  rewrite size_singleton. lia.
Qed.

Lemma bucket_counts_after_pass destdir plan_dirs fs0 tables fs :
  main destdir plan_dirs fs0 = (Ok tables, fs) →
  ∀ dom_name,
    (total_count (entry (seen_runtimes tables) dom_name)
     ≤ Z.of_nat (size (entry (seen_task_hashes tables) dom_name)))%Z
    ∧ ∀ bound n,
        entry (seen_runtimes tables) dom_name !! bound = Some n →
        bound ∈ RUNTIME_BOUNDS ∧ (1 ≤ n)%Z.
Proof.
  intros Hmain.
  apply (main_loop_preserves buckets_bounded destdir
           (buckets_bounded_body destdir) plan_dirs empty_tables fs0 tables fs);
    [|done].
  intros dom_name. unfold entry, empty_tables. simpl.
  rewrite !lookup_empty. simpl. rewrite total_count_empty. split; [done|].
  intros b n. by rewrite lookup_empty.
Qed.

(** X6.  After a completed pass, in every domain the bucket counts add up
    to at most the number of digests of the domain; every bucket counted is
    one of [RUNTIME_BOUNDS], with a count of at least 1. *)
Theorem bucket_counts_bounded_by_tasks destdir plan_dirs fs0 tables fs :
  main destdir plan_dirs fs0 = (Ok tables, fs) →
  ∀ dom_name,
    (total_count (entry (seen_runtimes tables) dom_name)
     ≤ Z.of_nat (size (entry (seen_task_hashes tables) dom_name)))%Z
    ∧ ∀ bound n,
        entry (seen_runtimes tables) dom_name !! bound = Some n →
        bound ∈ RUNTIME_BOUNDS ∧ (1 ≤ n)%Z.
Proof. apply bucket_counts_after_pass. Qed.

(** ** What the pass does to the destination *)

Lemma main_body_fs_cases destdir tables plan_dir fs outcome fs' :
  main_body destdir tables plan_dir fs = (outcome, fs') →
  fs' = fs
  ∨ ∃ props content,
      properties_json plan_dir = Some props
      ∧ planner_exitcode props = 0
      ∧ (fs' = {| dirs := {[destdir // domain props]} ∪ dirs fs;
                  files := <[destdir // domain props // problem_name_of props
                               := content]> (files fs) |}
         ∨ ∃ domain_text,
             fs' = retained_fs destdir props content domain_text fs).
Proof.
  rewrite (main_body_unfold md5_hexdigest join_parameters).
  destruct (properties_json plan_dir) as [props|] eqn:Hp;
    [|intros [= _ <-]; by left].
  case_decide as Hx; [|intros [= _ <-]; by left].
  destruct (problem_pddl plan_dir) as [content|];
    [|intros [= _ <-]; by left].
  case_decide; [intros [= _ <-]; by left|].
  destruct (record_max_values _ _); [|intros [= _ <-]; by left].
  destruct (record_runtime _ _); [|intros [= _ <-]; by left].
  destruct (domain_pddl plan_dir) as [domain_text|]; intros [= _ <-]; right;
    exists props, content; eauto 10.
Qed.

Lemma main_body_destination destdir tables plan_dir fs outcome fs' :
  main_body destdir tables plan_dir fs = (outcome, fs') →
  dirs fs ⊆ dirs fs'
  ∧ ∀ path,
      (is_Some (files fs !! path) → is_Some (files fs' !! path))
      ∧ (files fs' !! path ≠ files fs !! path →
         written_by join_parameters destdir plan_dir path).
Proof.
  intros Hbody.
  apply main_body_fs_cases in Hbody
    as [-> |(props & content & Hp & Hx & [-> |[domain_text ->]])].
  - split; [done|]. intros path. split; [done|]. by intros [].
  - simpl. split; [apply union_subseteq_r|]. intros path.
    destruct (decide (destdir // domain props // problem_name_of props = path))
      as [<-|Hne].
    + rewrite lookup_insert_eq. split; [eauto|]. intros _.
      exists props, (problem_name_of props). eauto 10.
    + rewrite lookup_insert_ne by done. split; [done|]. by intros [].
  - unfold Collect.retained_fs. simpl. split; [apply union_subseteq_r|].
    intros path.
    destruct (decide (destdir // domain props // "README" = path)) as [<-|Hn1].
    { rewrite lookup_insert_eq. split; [eauto|]. intros _.
      exists props, "README". eauto 10. }
    rewrite lookup_insert_ne by done.
    destruct (decide (destdir // domain props // "domain.pddl" = path))
      as [<-|Hn2].
    { rewrite lookup_insert_eq. split; [eauto|]. intros _.
      exists props, "domain.pddl". eauto 10. }
    rewrite lookup_insert_ne by done.
    destruct (decide (destdir // domain props // problem_name_of props = path))
      as [<-|Hn3].
    { rewrite lookup_insert_eq. split; [eauto|]. intros _.
      exists props, (problem_name_of props). eauto 10. }
    rewrite lookup_insert_ne by done. split; [done|]. by intros [].
Qed.

(** X7.  Whether the pass completes or raises, it only adds to the
    destination: every directory and every file that was there is still
    there, and a path whose content differs afterwards is the problem file,
    the domain file or the README below [<destdir>/<domain>] of a plan
    directory whose record has exit code 0. *)
Theorem pass_only_writes_below_domain_dirs destdir plan_dirs fs outcome fs' :
  main destdir plan_dirs fs = (outcome, fs') →
  dirs fs ⊆ dirs fs'
  ∧ ∀ path,
      (is_Some (files fs !! path) → is_Some (files fs' !! path))
      ∧ (files fs' !! path ≠ files fs !! path →
         ∃ plan_dir,
           plan_dir ∈ plan_dirs
           ∧ written_by join_parameters destdir plan_dir path).
Proof.
  unfold Collect.main. generalize empty_tables as tables.
  revert fs. induction plan_dirs as [|pd plan_dirs IH]; intros fs tables.
  - intros [= _ <-]. split; [done|]. intros path. split; [done|]. by intros [].
  - simpl. unfold bind.
    destruct (main_body destdir tables pd fs) as [[t1|e] fs1] eqn:Hbody.
    + intros Hrest. apply IH in Hrest as [Hdirs Hfiles].
      apply main_body_destination in Hbody as [Hdirs1 Hfiles1].
      split; [by transitivity (dirs fs1)|]. intros path.
      destruct (Hfiles path) as [Hkeep Hdiff].
      destruct (Hfiles1 path) as [Hkeep1 Hdiff1]. split; [auto|].
      intros Hne.
      destruct (decide (files fs1 !! path = files fs !! path)) as [Heq|Hne1].
      * rewrite <- Heq in Hne. destruct (Hdiff Hne) as (plan_dir & Hin & Hw).
        exists plan_dir. split; [by right|done].
      * exists pd. split; [by left|auto].
    + intros [= _ <-].
      apply main_body_destination in Hbody as [Hdirs1 Hfiles1].
      split; [done|]. intros path. destruct (Hfiles1 path) as [Hkeep1 Hdiff1].
      split; [done|]. intros Hne. exists pd. split; [by left|auto].
Qed.

(** ** Maximum values over the whole pass *)

Lemma main_body_max_step destdir tables plan_dir fs tables' fs' :
  main_body destdir tables plan_dir fs = (Ok tables', fs') →
  ∀ dom_name key old,
    entry (max_values tables) dom_name !! key = Some old →
    ∃ new, entry (max_values tables') dom_name !! key = Some new
           ∧ not_below new old.
Proof.
  intros Hbody dom_name key old Hold.
  apply (main_body_inv md5_hexdigest join_parameters) in Hbody
    as [(Heq & _)|(props & content & dt & maxima & cs & _ & _ & _ & _ & Hmax
                   & _ & _ & Heq & _)]; subst tables'.
  { exists old. split; [done|apply not_below_refl]. }
  simpl. rewrite entry_insert. case_decide as Hd; [subst dom_name|].
  2:{ exists old. split; [done|apply not_below_refl]. }
  pose proof (record_max_values_spec _ _ _ Hmax key) as Hkey.
  destruct ((<["planner_runtime" := runtime props]> (parameters props)) !! key)
    as [value|].
  - destruct Hkey as [[Hnone _]|(old' & Hold' & [[Hgt ->]|[_ ->]])].
    + congruence.
    + exists value. split; [done|]. right. congruence.
    + exists old'. split; [done|]. left. congruence.
  - rewrite Hkey. exists old. split; [done|apply not_below_refl].
Qed.

(** X11.  Over a completed pass, however many instances it retains, an
    entry of a table of maximum values stays bound, and its final value is
    the initial one or compares greater than it. *)
Theorem max_values_grow_over_the_pass destdir tables plan_dirs fs tables' fs' :
  main_loop destdir tables plan_dirs fs = (Ok tables', fs') →
  ∀ dom_name key old,
    entry (max_values tables) dom_name !! key = Some old →
    ∃ new, entry (max_values tables') dom_name !! key = Some new
           ∧ not_below new old.
Proof.
  apply (main_loop_preserves
           (λ t, ∀ dom_name key old,
              entry (max_values tables) dom_name !! key = Some old →
              ∃ new, entry (max_values t) dom_name !! key = Some new
                     ∧ not_below new old)
           destdir).
  - intros t pd fs1 t' fs1' Hinv Hbody dom_name key old Hold.
    destruct (Hinv dom_name key old Hold) as (mid & Hmid & Hle).
    destruct (main_body_max_step _ _ _ _ _ _ Hbody dom_name key mid Hmid)
      as (new & Hnew & Hle').
    exists new. split; [done|]. by apply not_below_trans with mid.
  - intros dom_name key old Hold. exists old.
    split; [done|apply not_below_refl].
Qed.

(** ** The first instance of a domain *)

Lemma record_runtime_number_ok counts runtime x :
  as_number runtime = Some x →
  ∃ counts', record_runtime counts runtime = Ok counts'.
Proof.
  intros Hx. unfold record_runtime.
  destruct (record_runtime_from_spec RUNTIME_BOUNDS counts runtime x Hx)
    as [(? & ? & ? & _ & _ & _ & Hres)|[_ Hres]]; eauto.
Qed.

Lemma main_body_first_instance destdir tables plan_dir props content
    domain_text x fs :
  properties_json plan_dir = Some props →
  planner_exitcode props = 0 →
  problem_pddl plan_dir = Some content →
  domain_pddl plan_dir = Some domain_text →
  as_number (runtime props) = Some x →
  seen_task_hashes tables !! domain props = None →
  max_values tables !! domain props = None →
  ∃ counts,
    main_body destdir tables plan_dir fs
    = (Ok (retained_tables tables props content
             (<["planner_runtime" := runtime props]> (parameters props))
             counts),
       retained_fs destdir props content domain_text fs).
Proof.
  intros Hp Hx Hc Hdom Hnum Hseen Hmax.
  destruct (record_runtime_number_ok
              (entry (seen_runtimes tables) (domain props)) _ _ Hnum)
    as [counts Hrt].
  exists counts.
  apply (main_body_retained md5_hexdigest join_parameters); try done.
  - unfold entry. rewrite Hseen. simpl. apply not_elem_of_empty.
  - unfold entry. rewrite Hmax. simpl.
    rewrite record_max_values_fresh; [|intros key _; apply lookup_empty].
    by rewrite (right_id_L ∅ (∪)).
Qed.

(** X12.  The first solved instance of a domain is always retained: when
    the tables do not know the domain, the record has exit code 0 and a
    numeric runtime, and both PDDL files exist, the iteration completes
    without any comparison of parameter values; the domain's table of
    maximum values is the instance's parameters and [planner_runtime]. *)
Theorem first_instance_of_domain_retained destdir tables plan_dir props content
    domain_text x fs :
  properties_json plan_dir = Some props →
  planner_exitcode props = 0 →
  problem_pddl plan_dir = Some content →
  domain_pddl plan_dir = Some domain_text →
  as_number (runtime props) = Some x →
  seen_task_hashes tables !! domain props = None →
  max_values tables !! domain props = None →
  ∃ counts,
    main_body destdir tables plan_dir fs
    = (Ok (retained_tables tables props content
             (<["planner_runtime" := runtime props]> (parameters props))
             counts),
       retained_fs destdir props content domain_text fs).
Proof. apply main_body_first_instance. Qed.

End CollectInvariants.

(** ** The reports *)

#[global] Instance item_le_total {V} : Total (@item_le V).
Proof. intros a b. apply str_le_total. Qed.

#[global] Instance item_le_trans {V} : Transitive (@item_le V).
Proof. intros a b c. apply str_le_trans. Qed.

#[global] Instance bucket_le_total : Total bucket_le.
Proof. intros a b. unfold bucket_le. lia. Qed.

#[global] Instance bucket_le_trans : Transitive bucket_le.
Proof. intros a b c. unfold bucket_le. lia. Qed.

Lemma sorted_items_spec {V} (d : gmap string V) :
  (∀ key value, (key, value) ∈ sorted_items d ↔ d !! key = Some value)
  ∧ NoDup (sorted_items d).*1
  ∧ StronglySorted str_le (sorted_items d).*1.
Proof.
  unfold sorted_items. split_and!.
  - intros key value. rewrite merge_sort_Permutation.
    apply elem_of_map_to_list.
  - rewrite merge_sort_Permutation. apply NoDup_fst_map_to_list.
  - apply (StronglySorted_fmap fst item_le); [done|].
    apply StronglySorted_merge_sort; apply _.
Qed.

Lemma sorted_buckets_spec (d : gmap Z Z) :
  (∀ bound n, (bound, n) ∈ sorted_buckets d ↔ d !! bound = Some n)
  ∧ NoDup (sorted_buckets d).*1
  ∧ StronglySorted Z.le (sorted_buckets d).*1.
Proof.
  unfold sorted_buckets. split_and!.
  - intros bound n. rewrite merge_sort_Permutation.
    apply elem_of_map_to_list.
  - rewrite merge_sort_Permutation. apply NoDup_fst_map_to_list.
  - apply (StronglySorted_fmap fst bucket_le); [done|].
    apply StronglySorted_merge_sort; apply _.
Qed.

Section ReportFacts.

Variable md5_hexdigest : string → string.
Variable join_parameters : gmap string pyval → string.

Abbreviation main := (main md5_hexdigest join_parameters).
Abbreviation hashed_before := (hashed_before md5_hexdigest).

(** X22.  After a completed pass the task report is the header followed
    by one line [ <domain>: <count>] per domain, the domains ascending and
    each once.  The domains listed are those for which some plan directory
    has a record with exit code 0 and a problem file, and the count is the
    number of distinct digests of these problem files, at least 1. *)
Theorem task_report_counts_distinct_problems destdir plan_dirs fs0 tables fs :
  main destdir plan_dirs fs0 = (Ok tables, fs) →
  ∃ items,
    print_task_count (seen_task_hashes tables)
    = print (newline +:+ "Tasks:")
        +:+ String.concat EmptyString (task_count_line <$> items)
    ∧ NoDup items.*1
    ∧ StronglySorted str_le items.*1
    ∧ (∀ dom_name,
         dom_name ∈ items.*1 ↔ ∃ digest, hashed_before plan_dirs dom_name digest)
    ∧ ∀ dom_name digests,
        (dom_name, digests) ∈ items →
        (1 ≤ size digests)%nat
        ∧ ∀ digest,
            digest ∈ digests ↔ hashed_before plan_dirs dom_name digest.
Proof.
  intros Hmain. exists (sorted_items (seen_task_hashes tables)).
  destruct (sorted_items_spec (seen_task_hashes tables))
    as (Hitems & Hnodup & Hsorted).
  pose proof (main_loop_seen md5_hexdigest join_parameters _ _ _ _ _ _ Hmain)
    as Hseen.
  assert (∀ dom_name digests,
            seen_task_hashes tables !! dom_name = Some digests →
            ∀ digest, digest ∈ digests
                      ↔ hashed_before plan_dirs dom_name digest) as Hdigests.
  { intros dom_name digests Hd digest.
    specialize (Hseen dom_name digest). unfold entry in Hseen.
    rewrite Hd in Hseen. simpl in Hseen. rewrite Hseen.
    unfold empty_tables. simpl. rewrite lookup_empty. simpl.
    split; [|auto]. intros [Hin|Hin]; [|done]. by apply elem_of_empty in Hin. }
  split_and!; try done.
  - intros dom_name. rewrite list_elem_of_fmap. split.
    + intros ([d ds] & -> & Hin). apply Hitems in Hin. simpl.
      destruct (tables_aligned_after_pass md5_hexdigest join_parameters
                  destdir plan_dirs fs0 tables fs Hmain) as (_ & _ & Hne).
      apply Hne in Hin as Hnonempty.
      apply set_choose_L in Hnonempty as [digest Hdigest].
      exists digest. by apply (Hdigests d ds).
    + intros [digest Hhashed].
      pose proof (proj2 (Hseen dom_name digest) (or_intror Hhashed)) as Hin.
      unfold entry in Hin.
      destruct (seen_task_hashes tables !! dom_name) as [ds|] eqn:Hd;
        [|by apply elem_of_empty in Hin].
      exists (dom_name, ds). split; [done|]. by apply Hitems.
  - intros dom_name digests Hin. apply Hitems in Hin.
    split; [|by apply Hdigests].
    destruct (tables_aligned_after_pass md5_hexdigest join_parameters
                destdir plan_dirs fs0 tables fs Hmain) as (_ & _ & Hne).
    apply Hne in Hin. apply set_choose_L in Hin as [digest Hdigest].
    assert (size digests ≠ 0%nat); [|lia].
    intros Hzero. apply size_empty_inv in Hzero. set_solver.
Qed.

(** X23.  After a completed pass the runtime report is the header
    followed by one line per domain, for the same domains as the task
    report, ascending.  A line lists the domain's buckets as
    [<bound>s: <count>] joined by a comma and a space, the bounds ascending
    and each once; every bound listed is one of [RUNTIME_BOUNDS] and every
    count is at least 1. *)
Theorem runtime_report_lists_buckets destdir plan_dirs fs0 tables fs :
  main destdir plan_dirs fs0 = (Ok tables, fs) →
  ∃ items,
    print_runtimes (seen_runtimes tables)
    = print (newline +:+ "Runtime smaller than:")
        +:+ String.concat EmptyString
              ((λ item : string * list (Z * Z),
                  print (" " +:+ item.1 +:+ ": "
                           +:+ String.concat ", " (bucket_text <$> item.2)))
                 <$> items)
    ∧ NoDup items.*1
    ∧ StronglySorted str_le items.*1
    ∧ (∀ dom_name,
         dom_name ∈ items.*1 ↔ ∃ digest, hashed_before plan_dirs dom_name digest)
    ∧ ∀ dom_name buckets,
        (dom_name, buckets) ∈ items →
        NoDup buckets.*1
        ∧ StronglySorted Z.le buckets.*1
        ∧ ∀ bound n, (bound, n) ∈ buckets →
                      bound ∈ RUNTIME_BOUNDS ∧ (1 ≤ n)%Z.
Proof.
  intros Hmain.
  exists (prod_map id sorted_buckets <$> sorted_items (seen_runtimes tables)).
  destruct (sorted_items_spec (seen_runtimes tables))
    as (Hitems & Hnodup & Hsorted).
  assert ((prod_map id sorted_buckets
             <$> sorted_items (seen_runtimes tables)).*1
          = (sorted_items (seen_runtimes tables)).*1) as Hkeys.
  { rewrite <- list_fmap_compose. apply list_fmap_ext. by intros i [d c] _. }
  rewrite Hkeys. split_and!; try done.
  - unfold print_runtimes. do 2 f_equal. rewrite <- list_fmap_compose.
    apply list_fmap_ext. by intros i [d c] _.
  - intros dom_name.
    destruct (tables_share_domains_after_pass md5_hexdigest join_parameters
                destdir plan_dirs fs0 tables fs Hmain) as (_ & Hrt & Hdom).
    rewrite <- Hdom, <- Hrt, elem_of_dom, list_elem_of_fmap. split.
    + intros ([d c] & -> & Hin). apply Hitems in Hin. by exists c.
    + intros [c Hc]. exists (dom_name, c). split; [done|]. by apply Hitems.
  - intros dom_name buckets ([d c] & [= -> ->] & Hin)%list_elem_of_fmap.
    apply Hitems in Hin. simpl.
    destruct (sorted_buckets_spec c) as (Hbuckets & Hnd & Hsort).
    split_and!; try done.
    intros bound n Hb. apply Hbuckets in Hb.
    destruct (bucket_counts_after_pass md5_hexdigest join_parameters destdir
                plan_dirs fs0 tables fs Hmain d) as [_ Hkeysb].
    apply (Hkeysb bound n). unfold entry. by rewrite Hin.
Qed.

End ReportFacts.

(* ===================================================================== *)
(** * Further properties of the generation loop *)
(* ===================================================================== *)

(** ** The search for the runtime line *)

Lemma append_cons c (s t : string) : String c s +:+ t = String c (s +:+ t).
Proof. reflexivity. Qed.

Lemma append_empty_l (s : string) : EmptyString +:+ s = s.
Proof. reflexivity. Qed.

Lemma strip_prefix_Some p s rest :
  strip_prefix p s = Some rest ↔ s = p +:+ rest.
Proof.
  revert s. induction p as [|a p IH]; intros s; simpl.
  - rewrite append_empty_l. split; congruence.
  - rewrite append_cons. destruct s as [|b s]; [split; congruence|].
    destruct (Ascii.eqb a b) eqn:Hab.
    + apply Ascii.eqb_eq in Hab as ->. rewrite IH. split; congruence.
    + apply Ascii.eqb_neq in Hab. split; congruence.
Qed.

Lemma lazy_group_rest_sound s group :
  lazy_group_rest s = Some group →
  ∃ post,
    s = group +:+ "s real" +:+ post
    ∧ has_newline group = false
    ∧ ∀ g1 g2, group = g1 +:+ g2 → g2 ≠ EmptyString →
               strip_prefix "s real" (g2 +:+ "s real" +:+ post) = None.
Proof.
  revert group. induction s as [|c s IH]; intros group.
  - simpl. discriminate.
  - cbn [lazy_group_rest].
    destruct (strip_prefix "s real" (String c s)) as [post|] eqn:Hstop.
    + intros [= <-]. exists post. apply strip_prefix_Some in Hstop.
      split_and!; [done|done|].
      intros g1 g2 Hsplit Hne. destruct g1, g2; done.
    + destruct (is_newline c) eqn:Hc; [done|].
      destruct (lazy_group_rest s) as [group'|] eqn:Hrest; [|done].
      intros [= <-]. destruct (IH group' eq_refl) as (post & -> & Hnl & Hlazy).
      exists post. split_and!.
      * by rewrite append_cons.
      * simpl. by rewrite Hc, Hnl.
      * intros g1 g2 Hsplit Hne. destruct g1 as [|c1 g1].
        -- rewrite append_empty_l in Hsplit. subst g2.
           by rewrite append_cons.
        -- rewrite append_cons in Hsplit. injection Hsplit as _ Hsplit.
           by apply (Hlazy g1 g2).
Qed.

Lemma lazy_group_rest_complete group post :
  has_newline group = false →
  is_Some (lazy_group_rest (group +:+ "s real" +:+ post)).
Proof.
  induction group as [|c group IH]; intros Hnl.
  - rewrite append_empty_l. by eexists.
  - rewrite append_cons. cbn [lazy_group_rest].
    destruct (strip_prefix "s real" _); [by eexists|].
    simpl in Hnl. apply orb_false_iff in Hnl as [-> Hnl].
    destruct (IH Hnl) as [g Hg]. rewrite Hg. by eexists.
Qed.

Lemma match_runtime_here_sound s group :
  match_runtime_here s = Some group →
  ∃ post,
    s = "runtime: " +:+ group +:+ "s real" +:+ post
    ∧ group ≠ EmptyString
    ∧ has_newline group = false
    ∧ ∀ g1 g2, group = g1 +:+ g2 → g1 ≠ EmptyString → g2 ≠ EmptyString →
               strip_prefix "s real" (g2 +:+ "s real" +:+ post) = None.
Proof.
  unfold match_runtime_here.
  destruct (strip_prefix "runtime: " s) as [[|c rest]|] eqn:Hpre; try done.
  apply strip_prefix_Some in Hpre as ->.
  destruct (is_newline c) eqn:Hc; [done|].
  destruct (lazy_group_rest rest) as [g|] eqn:Hrest; [|done].
  intros [= <-].
  destruct (lazy_group_rest_sound _ _ Hrest) as (post & -> & Hnl & Hlazy).
  exists post. split_and!; try done.
  - simpl. by rewrite Hc, Hnl.
  - intros g1 g2 Hsplit Hne1 Hne2. destruct g1 as [|c1 g1]; [done|].
    rewrite append_cons in Hsplit. injection Hsplit as _ Hsplit.
    by apply (Hlazy g1 g2).
Qed.

Lemma match_runtime_here_complete group post :
  group ≠ EmptyString →
  has_newline group = false →
  is_Some (match_runtime_here
             ("runtime: " +:+ group +:+ "s real" +:+ post)).
Proof.
  intros Hne Hnl. unfold match_runtime_here.
  rewrite (proj2 (strip_prefix_Some "runtime: " _
                    (group +:+ "s real" +:+ post)) eq_refl).
  destruct group as [|c group]; [done|]. rewrite append_cons.
  simpl in Hnl. apply orb_false_iff in Hnl as [-> Hnl].
  destruct (lazy_group_rest_complete group post Hnl) as [g Hg].
  rewrite Hg. by eexists.
Qed.

Lemma search_runtime_here s group :
  match_runtime_here s = Some group → search_runtime s = Some group.
Proof. intros Hhere. destruct s; cbn [search_runtime]; by rewrite Hhere. Qed.

(** X13.  What [re.search] returns as group 1 occurs in the log between
    [runtime: ] and [s real]; it is not empty and holds no line feed; it is
    the shortest such group at its start ([s real] does not follow any
    proper prefix of it), and no match starts further left. *)
Theorem search_runtime_finds_a_match output group :
  search_runtime output = Some group →
  ∃ pre post,
    output = pre +:+ "runtime: " +:+ group +:+ "s real" +:+ post
    ∧ group ≠ EmptyString
    ∧ has_newline group = false
    ∧ (∀ g1 g2, group = g1 +:+ g2 → g1 ≠ EmptyString → g2 ≠ EmptyString →
                strip_prefix "s real" (g2 +:+ "s real" +:+ post) = None)
    ∧ (∀ pre1 pre2, pre = pre1 +:+ pre2 → pre2 ≠ EmptyString →
         match_runtime_here
           (pre2 +:+ "runtime: " +:+ group +:+ "s real" +:+ post) = None).
Proof.
  revert group. induction output as [|c output IH]; intros group.
  - cbn [search_runtime]. unfold match_runtime_here. simpl. discriminate.
  - cbn [search_runtime].
    destruct (match_runtime_here (String c output)) as [g|] eqn:Hhere.
    + intros [= <-].
      destruct (match_runtime_here_sound _ _ Hhere)
        as (post & Hout & Hne & Hnl & Hlazy).
      exists EmptyString, post. rewrite append_empty_l.
      split_and!; try done.
      intros pre1 pre2 Hsplit Hne2. destruct pre1, pre2; done.
    + intros Hrest.
      destruct (IH _ Hrest) as (pre & post & -> & Hne & Hnl & Hlazy & Hleft).
      exists (String c pre), post. rewrite append_cons.
      split_and!; try done.
      intros pre1 pre2 Hsplit Hne2. destruct pre1 as [|c1 pre1].
      * rewrite append_empty_l in Hsplit. subst pre2.
        by rewrite append_cons.
      * rewrite append_cons in Hsplit. injection Hsplit as _ Hsplit.
        by apply (Hleft pre1 pre2).
Qed.

(** X14.  Whenever the log holds [runtime: ], a non-empty text without a
    line feed and [s real] in a row, the search finds a group. *)
Theorem search_runtime_misses_no_match pre group post :
  group ≠ EmptyString →
  has_newline group = false →
  is_Some (search_runtime (pre +:+ "runtime: " +:+ group +:+ "s real" +:+ post)).
Proof.
  intros Hne Hnl. induction pre as [|c pre IH].
  - rewrite append_empty_l.
    destruct (match_runtime_here_complete group post Hne Hnl) as [g Hg].
    exists g. by apply search_runtime_here.
  - rewrite append_cons. cbn [search_runtime].
    destruct (match_runtime_here _); [by eexists|done].
Qed.

(** ** Scores and exceptions of one evaluation *)

Lemma float_neg_le a b :
  float_le a b = true → float_le (float_neg b) (float_neg a) = true.
Proof.
  destruct a as [p| | |], b as [q| | |]; simpl; try done.
  intros Hle.
  assert (p <= q)%Q as Hpq.
  { apply Qle_alt. by destruct (p ?= q)%Q. }
  apply Qopp_le_compat in Hpq.
  by destruct (- q ?= - p)%Q eqn:Hc.
Qed.

Lemma float_le_lt_trans a b c :
  float_le a b = true → float_lt b c = true → float_lt a c = true.
Proof.
  destruct a as [p| | |], b as [q| | |], c as [r| | |]; simpl; try done.
  intros Hle Hlt.
  assert (p <= q)%Q as Hpq.
  { apply Qle_alt. by destruct (p ?= q)%Q. }
  assert (q < r)%Q as Hqr.
  { apply Qlt_alt. by destruct (q ?= r)%Q. }
  by rewrite (proj1 (Qlt_alt p r) (Qle_lt_trans _ _ _ Hpq Hqr)).
Qed.

Section GenerateErrors.

Variable ARGS_domain : string.
Variable SMAC_RUN_DIR : string.
Variable adapt_parameters : gmap string pyval → result (gmap string pyval).
Variable generate_input_files :
  gmap string pyval → Z → string → io World string.
Variable run_planner : string → io World Z.
Variable float_of_string : string → option pyfloat.
Variable xz_compress : string → string.

Abbreviation results_of := (results_of ARGS_domain).
Abbreviation stored := (stored ARGS_domain).
Abbreviation parse_runtime := (parse_runtime float_of_string).
Abbreviation xz_run_log := (xz_run_log xz_compress).
Abbreviation evaluate_configuration :=
  (evaluate_configuration ARGS_domain SMAC_RUN_DIR adapt_parameters
     generate_input_files run_planner float_of_string xz_compress).
Abbreviation evaluate_planned :=
  (evaluate_planned ARGS_domain SMAC_RUN_DIR adapt_parameters
     generate_input_files run_planner float_of_string xz_compress).

(** X15.  A planner run with exit code 0 whose log cannot be read for the
    runtime is not turned into the penalty: [evaluate_configuration] raises
    [FileNotFoundError] when [run.log] is missing, [AttributeError] when no
    runtime line is found and [ValueError] when the text found is no float.
    The world is as the planner left it: no record is stored and the log is
    not compressed. *)
Theorem solved_run_with_unreadable_log_raises cfg0 cfg seed plan_dir w w1 w2 :
  adapt_parameters cfg0 = Ok cfg →
  generate_input_files cfg seed (SMAC_RUN_DIR // TMP_PLAN_DIR) w
  = (Ok plan_dir, w1) →
  run_planner plan_dir w1 = (Ok 0, w2) →
  (texts w2 !! (plan_dir // "run.log") = None →
   evaluate_configuration cfg0 seed w = (Raise FileNotFoundError, w2))
  ∧ (∀ output,
       texts w2 !! (plan_dir // "run.log") = Some output →
       search_runtime output = None →
       evaluate_configuration cfg0 seed w = (Raise AttributeError, w2))
  ∧ (∀ output group,
       texts w2 !! (plan_dir // "run.log") = Some output →
       search_runtime output = Some group →
       float_of_string group = None →
       evaluate_configuration cfg0 seed w = (Raise ValueError, w2)).
Proof.
  intros Hadapt Hgen Hrun.
  pose proof (evaluate_planned _ _ seed _ _ _ _ _ Hadapt Hgen Hrun) as Heval.
  simpl in Heval. unfold Generate.parse_runtime in Heval. split_and!.
  - intros Hlog. by rewrite Hlog in Heval.
  - intros output Hlog Hsearch. by rewrite Hlog, Hsearch in Heval.
  - intros output group Hlog Hsearch Hfloat.
    by rewrite Hlog, Hsearch, Hfloat in Heval.
Qed.

(** X16.  Only [IllegalConfiguration] from [adapt_parameters] and
    [CalledProcessError] from the generator are caught: any other exception
    of the two, and any exception of the planner run, leaves
    [evaluate_configuration] as it was raised. *)
Theorem other_exceptions_propagate :
  (∀ cfg seed w e,
     adapt_parameters cfg = Raise e → e ≠ IllegalConfiguration →
     evaluate_configuration cfg seed w = (Raise e, w))
  ∧ (∀ cfg0 cfg seed w w1 e,
       adapt_parameters cfg0 = Ok cfg →
       generate_input_files cfg seed (SMAC_RUN_DIR // TMP_PLAN_DIR) w
       = (Raise e, w1) →
       e ≠ CalledProcessError →
       evaluate_configuration cfg0 seed w = (Raise e, w1))
  ∧ (∀ cfg0 cfg seed plan_dir w w1 w2 e,
       adapt_parameters cfg0 = Ok cfg →
       generate_input_files cfg seed (SMAC_RUN_DIR // TMP_PLAN_DIR) w
       = (Ok plan_dir, w1) →
       run_planner plan_dir w1 = (Raise e, w2) →
       evaluate_configuration cfg0 seed w = (Raise e, w2)).
Proof.
  split_and!.
  - intros cfg seed w e Hadapt Hne. unfold Generate.evaluate_configuration.
    rewrite Hadapt. by destruct e.
  - intros cfg0 cfg seed w w1 e Hadapt Hgen Hne.
    unfold Generate.evaluate_configuration. rewrite Hadapt, Hgen.
    by destruct e.
  - intros cfg0 cfg seed plan_dir w w1 w2 e Hadapt Hgen Hrun.
    unfold Generate.evaluate_configuration. rewrite Hadapt, Hgen.
    unfold bind at 1. by rewrite Hrun.
Qed.

(** X17.  The score of a solved trial is a float of at most -0.1, so it
    is strictly below the penalty 100 of every failed trial. *)
Theorem solved_score_below_penalty cfg0 cfg seed plan_dir w w1 w2 output
    group parsed :
  adapt_parameters cfg0 = Ok cfg →
  generate_input_files cfg seed (SMAC_RUN_DIR // TMP_PLAN_DIR) w
  = (Ok plan_dir, w1) →
  run_planner plan_dir w1 = (Ok 0, w2) →
  texts w2 !! (plan_dir // "run.log") = Some output →
  search_runtime output = Some group →
  float_of_string group = Some parsed →
  ∃ score w',
    evaluate_configuration cfg0 seed w = (Ok (PFloat score), w')
    ∧ float_le score (float_neg float_0_1) = true
    ∧ py_gt (PInt 100) (PFloat score) = Some true.
Proof.
  intros Hadapt Hgen Hrun Hlog Hsearch Hfloat.
  pose proof (evaluate_planned _ _ seed _ _ _ _ _ Hadapt Hgen Hrun) as Heval.
  rewrite (parse_runtime_found float_of_string _ _ _ _ _ Hlog Hsearch Hfloat)
    in Heval.
  simpl in Heval. eexists _, _. split; [exact Heval|].
  pose proof (float_neg_le _ _ (py_max_lower_bound parsed)) as Hle.
  split; [exact Hle|].
  unfold py_gt. cbn [as_number]. f_equal. unfold float_gt.
  by apply (float_le_lt_trans _ _ _ Hle).
Qed.

Lemma xz_run_log_texts plan_dir w path :
  path ≠ plan_dir // "run.log" →
  path ≠ plan_dir // "run.log.xz" →
  texts (xz_run_log plan_dir w).2 !! path = texts w !! path.
Proof.
  intros Hlog Hxz. unfold Generate.xz_run_log.
  destruct (texts w !! (plan_dir // "run.log")); [|done].
  destruct (texts w !! (plan_dir // "run.log.xz")); [done|]. simpl.
  rewrite lookup_insert_ne by done. by rewrite lookup_delete_ne.
Qed.

(** X18.  An evaluation that returns a score after the planner ran
    changes, of what the planner left, one JSON document, the run record of
    its plan directory, and no text file other than that directory's
    [run.log] and [run.log.xz]. *)
Theorem evaluation_writes_one_record cfg0 cfg seed plan_dir exitcode w w1 w2
    score w' :
  adapt_parameters cfg0 = Ok cfg →
  generate_input_files cfg seed (SMAC_RUN_DIR // TMP_PLAN_DIR) w
  = (Ok plan_dir, w1) →
  run_planner plan_dir w1 = (Ok exitcode, w2) →
  evaluate_configuration cfg0 seed w = (Ok score, w') →
  (∃ runtime,
     json_files w'
     = <[plan_dir // "properties.json"
           := sort_keys (results_of cfg seed exitcode runtime)]>
         (json_files w2))
  ∧ ∀ path,
      path ≠ plan_dir // "run.log" →
      path ≠ plan_dir // "run.log.xz" →
      texts w' !! path = texts w2 !! path.
Proof.
  intros Hadapt Hgen Hrun.
  rewrite (evaluate_planned _ _ seed _ _ _ _ _ Hadapt Hgen Hrun).
  destruct (exitcode =? 0)%Z.
  - destruct (Generate.parse_runtime float_of_string plan_dir w2)
      as [[r|e] w3] eqn:Hparse; [|done].
    apply (parse_runtime_inv float_of_string) in Hparse as [-> _].
    intros [= _ <-]. split.
    + exists (Some r).
      by rewrite (proj2 (xz_run_log_spec xz_compress plan_dir _)).
    + intros path Hlog Hxz. by rewrite xz_run_log_texts.
  - intros [= _ <-]. split.
    + exists None.
      by rewrite (proj2 (xz_run_log_spec xz_compress plan_dir _)).
    + intros path Hlog Hxz. by rewrite xz_run_log_texts.
Qed.

End GenerateErrors.

(* ===================================================================== *)
(** * From a trial to the benchmark tree *)
(* ===================================================================== *)

Import Pipeline.

Lemma sorted_items_to_map (cfg : gmap string pyval) :
  list_to_map
    (merge_sort key_le
       ((λ kv : string * pyval, match kv with (k, x) => (k, sort_keys x) end)
          <$> map_to_list cfg))
  = sort_keys <$> cfg.
Proof.
  assert ((λ kv : string * pyval, match kv with (k, x) => (k, sort_keys x) end)
            <$> map_to_list cfg
          = prod_map id sort_keys <$> map_to_list cfg) as ->.
  { apply list_fmap_ext. by intros i [k x] _. }
  rewrite <- (list_to_map_proper (prod_map id sort_keys <$> map_to_list cfg)).
  - by rewrite list_to_map_fmap, list_to_map_to_list.
  - rewrite <- list_fmap_compose.
    assert (fst ∘ prod_map id sort_keys <$> map_to_list cfg
            = (map_to_list cfg).*1) as ->.
    { apply list_fmap_ext. by intros i [k x] _. }
    apply NoDup_fst_map_to_list.
  - symmetry. apply merge_sort_Permutation.
Qed.

Lemma sort_keys_scalars (cfg : gmap string pyval) :
  (∀ key value, cfg !! key = Some value → is_scalar value = true) →
  sort_keys <$> cfg = cfg.
Proof.
  intros Hscalar. apply map_eq. intros key. rewrite lookup_fmap.
  destruct (cfg !! key) as [value|] eqn:Hv; [|done]. simpl. f_equal.
  specialize (Hscalar key value Hv). by destruct value.
Qed.

Section PipelineFacts.

Variable md5_hexdigest : string → string.
Variable join_parameters : gmap string pyval → string.
Variable ARGS_domain : string.
Variable SMAC_RUN_DIR : string.
Variable adapt_parameters : gmap string pyval → result (gmap string pyval).
Variable generate_input_files :
  gmap string pyval → Z → string → io World string.
Variable run_planner : string → io World Z.
Variable float_of_string : string → option pyfloat.
Variable xz_compress : string → string.

Abbreviation results_of := (results_of ARGS_domain).
Abbreviation stored := (stored ARGS_domain).
Abbreviation evaluate_configuration :=
  (evaluate_configuration ARGS_domain SMAC_RUN_DIR adapt_parameters
     generate_input_files run_planner float_of_string xz_compress).
Abbreviation main_body := (main_body md5_hexdigest join_parameters).
Abbreviation retained_tables := (retained_tables md5_hexdigest).
Abbreviation retained_fs := (retained_fs join_parameters).

Lemma props_of_results cfg seed exitcode runtime :
  props_of_document (sort_keys (results_of cfg seed exitcode runtime))
  = Some {| domain := ARGS_domain;
            parameters := sort_keys <$> cfg;
            seed := seed;
            planner_exitcode := exitcode;
            runtime := pyval_of_runtime runtime |}.
Proof.
  rewrite (sort_keys_results ARGS_domain). unfold props_of_document.
  cbn [member List.find fst snd String.eqb Ascii.eqb Bool.eqb fmap option_fmap
         option_map sort_keys].
  by rewrite sorted_items_to_map.
Qed.

(** X19.  The run record that [store_results] writes reads back, through
    the lookups of the collection pass, as the record of the trial: the
    domain of the command line, the seed, the exit code, the runtime
    ([null] for none), and the configuration with every nested object in
    key order, which is the configuration itself when all its values are
    scalars. *)
Theorem stored_record_reads_back cfg seed plan_dir exitcode runtime w :
  (run_record plan_dir (stored cfg seed plan_dir exitcode runtime w)
     ≫= props_of_document
   = Some {| domain := ARGS_domain;
             parameters := sort_keys <$> cfg;
             seed := seed;
             planner_exitcode := exitcode;
             runtime := pyval_of_runtime runtime |})
  ∧ ((∀ key value, cfg !! key = Some value → is_scalar value = true) →
     sort_keys <$> cfg = cfg).
Proof.
  split; [|apply sort_keys_scalars].
  rewrite (run_record_stored ARGS_domain). simpl. apply props_of_results.
Qed.

Lemma evaluate_keeps_pddl_files plan_dir w name :
  name ≠ "run.log" → name ≠ "run.log.xz" →
  texts (Generate.xz_run_log xz_compress plan_dir w).2 !! (plan_dir // name)
  = texts w !! (plan_dir // name).
Proof.
  intros Hlog Hxz. apply xz_run_log_texts.
  - intros Heq. by apply path_join_inj in Heq.
  - intros Heq. by apply path_join_inj in Heq.
Qed.

(** X20.  A solved trial is collected: after [evaluate_configuration]
    returns for a run with exit code 0 that left [problem.pddl] and
    [domain.pddl] in the plan directory, the plan directory holds a record
    that reads back with the domain, the configuration (of scalar values)
    and the seed of the trial, and both PDDL files are still there; a
    collection pass that meets this plan directory first retains it. *)
Theorem solved_trial_is_collected cfg0 cfg seed plan_dir w w1 w2 output group
    parsed content domain_text :
  adapt_parameters cfg0 = Ok cfg →
  generate_input_files cfg seed (SMAC_RUN_DIR // TMP_PLAN_DIR) w
  = (Ok plan_dir, w1) →
  run_planner plan_dir w1 = (Ok 0, w2) →
  texts w2 !! (plan_dir // "run.log") = Some output →
  search_runtime output = Some group →
  float_of_string group = Some parsed →
  texts w2 !! (plan_dir // "problem.pddl") = Some content →
  texts w2 !! (plan_dir // "domain.pddl") = Some domain_text →
  (∀ key value, cfg !! key = Some value → is_scalar value = true) →
  ∃ score w' props,
    evaluate_configuration cfg0 seed w = (Ok score, w')
    ∧ run_record plan_dir w' ≫= props_of_document = Some props
    ∧ domain props = ARGS_domain
    ∧ parameters props = cfg
    ∧ Collect.seed props = seed
    ∧ planner_exitcode props = 0
    ∧ texts w' !! (plan_dir // "problem.pddl") = Some content
    ∧ texts w' !! (plan_dir // "domain.pddl") = Some domain_text
    ∧ ∀ destdir fs,
        ∃ counts,
          main_body destdir empty_tables
            {| properties_json := Some props;
               problem_pddl := Some content;
               domain_pddl := Some domain_text |} fs
          = (Ok (retained_tables empty_tables props content
                   (<["planner_runtime" := runtime props]> cfg) counts),
             retained_fs destdir props content domain_text fs).
Proof.
  intros Hadapt Hgen Hrun Hlog Hsearch Hfloat Hproblem Hdomain Hscalar.
  pose proof (evaluate_planned ARGS_domain SMAC_RUN_DIR adapt_parameters
                generate_input_files run_planner float_of_string xz_compress
                _ _ seed _ _ _ _ _ Hadapt Hgen Hrun) as Heval.
  rewrite (parse_runtime_found float_of_string _ _ _ _ _ Hlog Hsearch Hfloat)
    in Heval.
  simpl in Heval.
  eexists _, _,
    {| domain := ARGS_domain;
       parameters := cfg;
       Collect.seed := seed;
       planner_exitcode := 0;
       runtime := PFloat (py_max float_0_1 parsed) |}.
  split; [exact Heval|]. split_and!; try done.
  - rewrite (run_record_after_xz ARGS_domain xz_compress).
    cbn [mbind option_bind].
    rewrite props_of_results. by rewrite (sort_keys_scalars cfg Hscalar).
  - by rewrite evaluate_keeps_pddl_files.
  - by rewrite evaluate_keeps_pddl_files.
  - intros destdir fs.
    destruct (main_body_first_instance md5_hexdigest join_parameters destdir
                empty_tables
                {| properties_json :=
                     Some {| domain := ARGS_domain;
                             parameters := cfg;
                             Collect.seed := seed;
                             planner_exitcode := 0;
                             runtime := PFloat (py_max float_0_1 parsed) |};
                   problem_pddl := Some content;
                   domain_pddl := Some domain_text |}
                _ content domain_text (py_max float_0_1 parsed) fs
                eq_refl eq_refl eq_refl eq_refl eq_refl
                (lookup_empty _) (lookup_empty _)) as [counts Hbody].
    exists counts. exact Hbody.
Qed.

(** X21.  A failed trial is not collected: after a planner run with a
    non-zero exit code the plan directory holds a record that reads back
    with that exit code and a null runtime, and a collection pass skips
    every plan directory with this record. *)
Theorem failed_trial_is_skipped cfg0 cfg seed plan_dir exitcode w w1 w2 :
  adapt_parameters cfg0 = Ok cfg →
  generate_input_files cfg seed (SMAC_RUN_DIR // TMP_PLAN_DIR) w
  = (Ok plan_dir, w1) →
  run_planner plan_dir w1 = (Ok exitcode, w2) →
  exitcode ≠ 0 →
  ∃ w' props,
    evaluate_configuration cfg0 seed w = (Ok (PInt 100), w')
    ∧ run_record plan_dir w' ≫= props_of_document = Some props
    ∧ planner_exitcode props = exitcode
    ∧ runtime props = PNone
    ∧ ∀ destdir tables collected fs,
        properties_json collected = Some props →
        main_body destdir tables collected fs = (Ok tables, fs).
Proof.
  intros Hadapt Hgen Hrun Hx.
  pose proof (evaluate_planned ARGS_domain SMAC_RUN_DIR adapt_parameters
                generate_input_files run_planner float_of_string xz_compress
                _ _ seed _ _ _ _ _ Hadapt Hgen Hrun) as Heval.
  rewrite (proj2 (Z.eqb_neq exitcode 0) Hx) in Heval.
  eexists _, _. split; [exact Heval|]. split_and!.
  - rewrite (run_record_after_xz ARGS_domain xz_compress).
    cbn [mbind option_bind]. apply (props_of_results cfg seed exitcode None).
  - done.
  - done.
  - intros destdir tables collected fs Hp.
    by apply (main_body_failed md5_hexdigest join_parameters) with
      (props := {| domain := ARGS_domain;
                   parameters := sort_keys <$> cfg;
                   Collect.seed := seed;
                   planner_exitcode := exitcode;
                   runtime := pyval_of_runtime None |}).
Qed.

End PipelineFacts.

(** ** Instances on the sample data *)

Lemma C1_retained_only_if_exitcode_zero_witness :
  Collect.main_body Sample.digest Sample.join_ints "benchmarks"
    empty_tables Sample.failed_dir Sample.empty_fs
  = (Ok empty_tables, Sample.empty_fs).
Proof.
  apply (C1_retained_only_if_exitcode_zero Sample.digest Sample.join_ints
           "benchmarks" empty_tables Sample.failed_dir Sample.failed_props
           Sample.empty_fs eq_refl).
  simpl. lia.
Defined.

Lemma C2_duplicates_dropped_per_domain_witness :
  Collect.main_body Sample.digest Sample.join_ints "benchmarks"
    Sample.solved_tables Sample.solved_dir Sample.solved_fs
  = (Ok Sample.solved_tables, Sample.solved_fs)
  ∧ ∃ tables' fs',
      Collect.main_body Sample.digest Sample.join_ints "benchmarks"
        Sample.solved_tables Sample.other_domain_dir Sample.solved_fs
      = (Ok tables', fs')
      ∧ files fs' !! "benchmarks/gripper/p-4-1.pddl"
        = Some "(define (problem bw-4-2))".
Proof.
  split.
  - apply (C2_duplicates_dropped_per_domain Sample.digest Sample.join_ints
             "benchmarks" [Sample.solved_dir] Sample.solved_dir
             Sample.solved_props "(define (problem bw-4-2))"
             Sample.solved_tables Sample.empty_fs Sample.solved_fs
             eq_refl eq_refl eq_refl eq_refl).
    exists Sample.solved_dir, Sample.solved_props, "(define (problem bw-4-2))".
    split_and!; try reflexivity. apply list_elem_of_singleton. reflexivity.
  - pose proof (C2_duplicates_dropped_per_domain Sample.digest
                  Sample.join_ints "benchmarks" [Sample.solved_dir]
                  Sample.other_domain_dir _ "(define (problem bw-4-2))"
                  Sample.solved_tables Sample.empty_fs Sample.solved_fs
                  eq_refl eq_refl eq_refl eq_refl) as [_ Hkept].
    edestruct Hkept as (fs' & Hbody & Hfile).
    + intros pd props content Hin Hp _ _ _.
      apply list_elem_of_singleton in Hin. subst pd.
      injection Hp as <-. simpl. discriminate.
    + vm_compute. reflexivity.
    + vm_compute. reflexivity.
    + reflexivity.
    + eexists _, fs'. split; [exact Hbody | exact Hfile].
Defined.

Lemma C3_failures_give_penalty_or_skip_witness :
  Generate.evaluate_configuration "blocksworld" "smac/run_1"
    Sample.adapt_blocks Sample.generate_blocks (Sample.run_small_planner 0)
    Sample.float_of_literal id Sample.no_blocks_cfg 7 Sample.empty_world
  = (Ok (PInt 100), Sample.empty_world)
  ∧ Generate.evaluate_configuration "blocksworld" "smac/run_1"
      Sample.adapt_blocks Sample.generate_blocks (Sample.run_small_planner 2)
      Sample.float_of_literal id Sample.many_towers_cfg 7 Sample.empty_world
    = (Ok (PInt 100), Sample.empty_world)
  ∧ (∃ w', Generate.evaluate_configuration "blocksworld" "smac/run_1"
             Sample.adapt_blocks Sample.generate_blocks
             (Sample.run_small_planner 9) Sample.float_of_literal id
             Sample.large_cfg 7 Sample.empty_world
           = (Ok (PInt 100), w'))
  ∧ Collect.main_loop Sample.digest Sample.join_ints "benchmarks"
      empty_tables [Sample.empty_dir; Sample.solved_dir] Sample.empty_fs
    = Collect.main_loop Sample.digest Sample.join_ints "benchmarks"
        empty_tables [Sample.solved_dir] Sample.empty_fs.
Proof.
  split_and!.
  - apply (proj1 (C3_failures_give_penalty_or_skip Sample.digest
                    Sample.join_ints "blocksworld" "smac/run_1"
                    Sample.adapt_blocks Sample.generate_blocks
                    (Sample.run_small_planner 0) Sample.float_of_literal id)).
    reflexivity.
  - apply (proj1 (proj2 (C3_failures_give_penalty_or_skip Sample.digest
                    Sample.join_ints "blocksworld" "smac/run_1"
                    Sample.adapt_blocks Sample.generate_blocks
                    (Sample.run_small_planner 2) Sample.float_of_literal id))
             Sample.many_towers_cfg Sample.many_towers_cfg);
      reflexivity.
  - apply (proj1 (proj2 (proj2 (C3_failures_give_penalty_or_skip Sample.digest
                    Sample.join_ints "blocksworld" "smac/run_1"
                    Sample.adapt_blocks Sample.generate_blocks
                    (Sample.run_small_planner 9) Sample.float_of_literal id)))
             Sample.large_cfg Sample.large_cfg 7 "smac/run_1/plan/1" 1
             Sample.empty_world Sample.empty_world Sample.empty_world);
      try reflexivity.
    lia.
  - apply (proj2 (proj2 (proj2 (C3_failures_give_penalty_or_skip Sample.digest
                    Sample.join_ints "blocksworld" "smac/run_1"
                    Sample.adapt_blocks Sample.generate_blocks
                    (Sample.run_small_planner 9) Sample.float_of_literal id)))
             "benchmarks" empty_tables Sample.empty_dir [Sample.solved_dir]
             Sample.empty_fs).
    reflexivity.
Defined.

Lemma C5_readme_lists_sorted_keys_witness :
  ∃ tables' fs' keys,
    Collect.main_body Sample.digest Sample.join_ints "benchmarks"
      empty_tables Sample.solved_dir Sample.empty_fs = (Ok tables', fs')
    ∧ files fs' !! "benchmarks/blocksworld/README"
      = Some ("Parameter order: " +:+ String.concat ", " keys
                +:+ newline)
    ∧ (∀ key, key ∈ keys
              ↔ is_Some (parameters Sample.solved_props !! key))
    ∧ NoDup keys
    ∧ StronglySorted str_le keys.
Proof.
  eapply (C5_readme_lists_sorted_keys Sample.digest Sample.join_ints
            "benchmarks" empty_tables Sample.solved_dir Sample.solved_props
            _ _ _ _ Sample.empty_fs eq_refl eq_refl eq_refl).
  - unfold entry. simpl. rewrite lookup_empty. apply not_elem_of_empty.
  - vm_compute. reflexivity.
  - vm_compute. reflexivity.
  - reflexivity.
Defined.

Lemma C6_instance_copied_to_domain_dir_witness :
  ∃ tables' fs',
    Collect.main_body Sample.digest Sample.join_ints "benchmarks"
      empty_tables Sample.solved_dir Sample.empty_fs = (Ok tables', fs')
    ∧ "benchmarks/blocksworld" ∈ dirs fs'
    ∧ files fs' !! "benchmarks/blocksworld/p-4-2-7.pddl"
      = Some "(define (problem bw-4-2))"
    ∧ files fs' !! "benchmarks/blocksworld/domain.pddl"
      = Some "(define (domain blocksworld))".
Proof.
  eapply (C6_instance_copied_to_domain_dir Sample.digest Sample.join_ints
            "benchmarks" empty_tables Sample.solved_dir Sample.solved_props
            _ _ _ _ Sample.empty_fs eq_refl eq_refl eq_refl).
  - unfold entry. simpl. rewrite lookup_empty. apply not_elem_of_empty.
  - vm_compute. reflexivity.
  - vm_compute. reflexivity.
  - reflexivity.
Defined.

(** The record of the sample configuration holds an object under
    [parameters]: it is not flat. *)
Lemma C7_run_record_not_flat :
  ¬ Generate.flat_run_record "blocksworld" Sample.small_cfg 7
      "smac/run_1/plan/1" 0 (Some float_0_1) Sample.empty_world.
Proof.
  intros (doc & Hdoc & Hflat & _).
  rewrite run_record_stored in Hdoc. injection Hdoc as <-.
  vm_compute in Hflat. discriminate.
Qed.

Lemma C8_recorded_runtime_clamped_witness :
  ∃ w' doc,
    Generate.evaluate_configuration "blocksworld" "smac/run_1"
      Sample.adapt_blocks Sample.generate_blocks (Sample.run_small_planner 4)
      Sample.float_of_literal id Sample.small_cfg 7 Sample.logged_world
    = (Ok (PFloat (float_neg float_0_1)), w')
    ∧ run_record "smac/run_1/plan/1" w' = Some doc
    ∧ member "runtime" doc = Some (PFloat float_0_1)
    ∧ float_le float_0_1 float_0_1 = true.
Proof.
  destruct (proj1 (C8_recorded_runtime_clamped "blocksworld" "smac/run_1"
                     Sample.adapt_blocks Sample.generate_blocks
                     (Sample.run_small_planner 4) Sample.float_of_literal id
                     Sample.small_cfg Sample.small_cfg 7 "smac/run_1/plan/1"
                     0 Sample.logged_world Sample.logged_world
                     Sample.logged_world eq_refl eq_refl eq_refl)
              eq_refl Sample.planner_log "0.02" (Fin (Qmake 1 50))
              eq_refl eq_refl eq_refl)
    as (r & w' & doc & Hr & Hle & Heval & Hrec & Hmem).
  simpl in Hr. subst r. by exists w', doc.
Defined.


Lemma C10_max_values_never_decrease_witness :
  (∀ old, entry (max_values empty_tables) "blocksworld" !! "n" = Some old →
     ∃ new, entry (max_values Sample.solved_tables) "blocksworld" !! "n"
            = Some new
            ∧ (new = old ∨ py_gt new old = Some true))
  ∧ (entry (max_values Sample.solved_tables) "blocksworld" !! "n"
       ≠ entry (max_values empty_tables) "blocksworld" !! "n" →
     ∃ props value,
       properties_json Sample.solved_dir = Some props
       ∧ planner_exitcode props = 0
       ∧ domain props = "blocksworld"
       ∧ (<["planner_runtime" := runtime props]> (parameters props)) !! "n"
         = Some value
       ∧ entry (max_values Sample.solved_tables) "blocksworld" !! "n"
         = Some value
       ∧ (entry (max_values empty_tables) "blocksworld" !! "n" = None
          ∨ ∃ old, entry (max_values empty_tables) "blocksworld" !! "n"
                   = Some old
                   ∧ py_gt value old = Some true)).
Proof.
  apply (C10_max_values_never_decrease Sample.digest Sample.join_ints
           "benchmarks" empty_tables Sample.solved_dir Sample.empty_fs
           Sample.solved_tables Sample.solved_fs).
  vm_compute. reflexivity.
Defined.

(** ** Instances of the further properties *)

Lemma pass_stops_at_first_error_witness :
  Collect.main Sample.digest Sample.join_ints "benchmarks"
    [Sample.solved_dir; Sample.no_problem_dir; Sample.harder_dir]
    Sample.empty_fs
  = (Raise FileNotFoundError, Sample.solved_fs).
Proof.
  apply (pass_stops_at_first_error Sample.digest Sample.join_ints "benchmarks"
           [Sample.solved_dir] Sample.no_problem_dir [Sample.harder_dir]
           Sample.solved_tables Sample.empty_fs Sample.solved_fs).
  - vm_compute. reflexivity.
  - vm_compute. reflexivity.
Defined.

Lemma missing_problem_file_raises_witness :
  Collect.main_body Sample.digest Sample.join_ints "benchmarks" empty_tables
    Sample.no_problem_dir Sample.empty_fs
  = (Raise FileNotFoundError, Sample.empty_fs).
Proof.
  apply (missing_problem_file_raises Sample.digest Sample.join_ints
           "benchmarks" empty_tables Sample.no_problem_dir Sample.solved_props
           Sample.empty_fs); reflexivity.
Defined.

Lemma missing_domain_file_leaves_partial_copy_witness :
  ∃ fs',
    Collect.main_body Sample.digest Sample.join_ints "benchmarks" empty_tables
      Sample.no_domain_dir Sample.empty_fs = (Raise FileNotFoundError, fs')
    ∧ "benchmarks/blocksworld" ∈ dirs fs'
    ∧ files fs' !! "benchmarks/blocksworld/p-4-2-7.pddl"
      = Some "(define (problem bw-4-2))"
    ∧ files fs' !! "benchmarks/blocksworld/domain.pddl"
      = files Sample.empty_fs !! "benchmarks/blocksworld/domain.pddl"
    ∧ files fs' !! "benchmarks/blocksworld/README"
      = files Sample.empty_fs !! "benchmarks/blocksworld/README".
Proof.
  eapply (missing_domain_file_leaves_partial_copy Sample.digest
            Sample.join_ints "benchmarks" empty_tables Sample.no_domain_dir
            Sample.solved_props _ _ _ Sample.empty_fs eq_refl eq_refl eq_refl).
  - unfold entry. simpl. rewrite lookup_empty. apply not_elem_of_empty.
  - vm_compute. reflexivity.
  - vm_compute. reflexivity.
  - reflexivity.
Defined.

Lemma non_numeric_runtime_raises_witness :
  Collect.main_body Sample.digest Sample.join_ints "benchmarks"
    Sample.solved_tables Sample.null_runtime_dir Sample.solved_fs
  = (Raise TypeError, Sample.solved_fs).
Proof.
  eapply (non_numeric_runtime_raises Sample.digest Sample.join_ints
            "benchmarks" Sample.solved_tables Sample.null_runtime_dir _
            "(define (problem bw-5-1))" Sample.solved_fs eq_refl eq_refl
            eq_refl).
  - assert (entry (seen_task_hashes Sample.solved_tables) "blocksworld"
            = ({[ "(define (problem bw-4-2))" ]} : gset string)) as Hentry
      by (vm_compute; reflexivity).
    simpl. rewrite Hentry. apply not_elem_of_singleton. discriminate.
  - reflexivity.
Defined.

Lemma tables_share_their_domains_witness :
  dom (max_values Sample.two_domains_tables)
  = dom (seen_task_hashes Sample.two_domains_tables)
  ∧ dom (seen_runtimes Sample.two_domains_tables)
    = dom (seen_task_hashes Sample.two_domains_tables)
  ∧ ∀ dom_name,
      dom_name ∈ dom (seen_task_hashes Sample.two_domains_tables)
      ↔ ∃ digest,
          Collect.hashed_before Sample.digest Sample.two_domains dom_name
            digest.
Proof.
  apply (tables_share_their_domains Sample.digest Sample.join_ints
           "benchmarks" Sample.two_domains Sample.empty_fs
           Sample.two_domains_tables Sample.after_two_domains.2).
  vm_compute. reflexivity.
Defined.

Lemma bucket_counts_bounded_by_tasks_witness :
  (total_count (entry (seen_runtimes Sample.two_domains_tables) "gripper")
   ≤ Z.of_nat
       (size (entry (seen_task_hashes Sample.two_domains_tables) "gripper")))%Z
  ∧ ∀ bound n,
      entry (seen_runtimes Sample.two_domains_tables) "gripper" !! bound
      = Some n →
      bound ∈ RUNTIME_BOUNDS ∧ (1 ≤ n)%Z.
Proof.
  apply (bucket_counts_bounded_by_tasks Sample.digest Sample.join_ints
           "benchmarks" Sample.two_domains Sample.empty_fs
           Sample.two_domains_tables Sample.after_two_domains.2).
  vm_compute. reflexivity.
Defined.

Lemma pass_only_writes_below_domain_dirs_witness :
  dirs Sample.empty_fs ⊆ dirs Sample.solved_fs
  ∧ ∀ path,
      (is_Some (files Sample.empty_fs !! path) →
       is_Some (files Sample.solved_fs !! path))
      ∧ (files Sample.solved_fs !! path ≠ files Sample.empty_fs !! path →
         ∃ plan_dir,
           plan_dir ∈ [Sample.solved_dir]
           ∧ Collect.written_by Sample.join_ints "benchmarks" plan_dir path).
Proof.
  apply (pass_only_writes_below_domain_dirs Sample.digest Sample.join_ints
           "benchmarks" [Sample.solved_dir] Sample.empty_fs
           Sample.after_solved.1).
  vm_compute. reflexivity.
Defined.

Lemma record_max_values_bounds_instance_witness :
  dom (<["n" := PInt 4]> ({[ "towers" := PInt 2 ]} : gmap string pyval))
  = dom ({[ "n" := PInt 2 ]} : gmap string pyval)
    ∪ dom ({[ "n" := PInt 4; "towers" := PInt 2 ]} : gmap string pyval)
  ∧ (∀ key value,
       ({[ "n" := PInt 4; "towers" := PInt 2 ]} : gmap string pyval) !! key
       = Some value →
       ∃ top,
         (<["n" := PInt 4]> ({[ "towers" := PInt 2 ]} : gmap string pyval))
           !! key = Some top
         ∧ (top = value ∨ py_gt value top = Some false))
  ∧ (∀ key,
       ({[ "n" := PInt 4; "towers" := PInt 2 ]} : gmap string pyval) !! key
       = None →
       (<["n" := PInt 4]> ({[ "towers" := PInt 2 ]} : gmap string pyval))
         !! key
       = ({[ "n" := PInt 2 ]} : gmap string pyval) !! key).
Proof.
  apply (record_max_values_bounds_instance
           {[ "n" := PInt 4; "towers" := PInt 2 ]} {[ "n" := PInt 2 ]}).
  vm_compute. reflexivity.
Defined.

Lemma record_max_values_stores_new_keys_unchecked_witness :
  Collect.record_max_values {[ "n" := PNone; "shape" := PStr "tower" ]} ∅
  = Ok ({[ "n" := PNone; "shape" := PStr "tower" ]} ∪ ∅).
Proof.
  apply (record_max_values_stores_new_keys_unchecked
           {[ "n" := PNone; "shape" := PStr "tower" ]} ∅).
  intros key _. apply lookup_empty.
Defined.

Lemma record_max_values_unorderable_raises_witness :
  Collect.record_max_values {[ "n" := PNone; "towers" := PInt 2 ]}
    {[ "n" := PInt 4 ]}
  = Raise TypeError.
Proof.
  apply (record_max_values_unorderable_raises
           {[ "n" := PNone; "towers" := PInt 2 ]} {[ "n" := PInt 4 ]}
           "n" PNone (PInt 4)); reflexivity.
Defined.

Lemma max_values_grow_over_the_pass_witness :
  ∃ new,
    entry (max_values Sample.harder_tables) "blocksworld" !! "n" = Some new
    ∧ not_below new (PInt 4).
Proof.
  apply (max_values_grow_over_the_pass Sample.digest Sample.join_ints
           "benchmarks" Sample.solved_tables [Sample.harder_dir]
           Sample.solved_fs Sample.harder_tables Sample.after_harder.2).
  - vm_compute. reflexivity.
  - vm_compute. reflexivity.
Defined.

Lemma first_instance_of_domain_retained_witness :
  ∃ counts,
    Collect.main_body Sample.digest Sample.join_ints "benchmarks" empty_tables
      Sample.solved_dir Sample.empty_fs
    = (Ok (Collect.retained_tables Sample.digest empty_tables
             Sample.solved_props "(define (problem bw-4-2))"
             (<["planner_runtime" := runtime Sample.solved_props]>
                (parameters Sample.solved_props))
             counts),
       Collect.retained_fs Sample.join_ints "benchmarks" Sample.solved_props
         "(define (problem bw-4-2))" "(define (domain blocksworld))"
         Sample.empty_fs).
Proof.
  apply (first_instance_of_domain_retained Sample.digest Sample.join_ints
           "benchmarks" empty_tables Sample.solved_dir Sample.solved_props
           "(define (problem bw-4-2))" "(define (domain blocksworld))"
           (Fin (Qmake 3 2)) Sample.empty_fs);
    reflexivity.
Defined.

Lemma search_runtime_finds_a_match_witness :
  ∃ pre post,
    Sample.planner_log = pre +:+ "runtime: " +:+ "0.02" +:+ "s real" +:+ post
    ∧ "0.02" ≠ EmptyString
    ∧ has_newline "0.02" = false
    ∧ (∀ g1 g2, "0.02" = g1 +:+ g2 → g1 ≠ EmptyString → g2 ≠ EmptyString →
                strip_prefix "s real" (g2 +:+ "s real" +:+ post) = None)
    ∧ (∀ pre1 pre2, pre = pre1 +:+ pre2 → pre2 ≠ EmptyString →
         match_runtime_here
           (pre2 +:+ "runtime: " +:+ "0.02" +:+ "s real" +:+ post) = None).
Proof.
  apply (search_runtime_finds_a_match Sample.planner_log "0.02").
  reflexivity.
Defined.

Lemma search_runtime_misses_no_match_witness :
  is_Some (search_runtime
             ("planner done, " +:+ "runtime: " +:+ "1.5" +:+ "s real"
                +:+ ", 1.2s user")).
Proof.
  apply (search_runtime_misses_no_match "planner done, " "1.5" ", 1.2s user").
  - discriminate.
  - reflexivity.
Defined.

Lemma solved_run_with_unreadable_log_raises_witness :
  Generate.evaluate_configuration "blocksworld" "smac/run_1"
    Sample.adapt_blocks Sample.generate_blocks (Sample.run_small_planner 4)
    Sample.float_of_literal id Sample.small_cfg 7 Sample.empty_world
  = (Raise FileNotFoundError, Sample.empty_world).
Proof.
  apply (proj1 (solved_run_with_unreadable_log_raises "blocksworld"
                  "smac/run_1" Sample.adapt_blocks Sample.generate_blocks
                  (Sample.run_small_planner 4) Sample.float_of_literal id
                  Sample.small_cfg Sample.small_cfg 7 "smac/run_1/plan/1"
                  Sample.empty_world Sample.empty_world Sample.empty_world
                  eq_refl eq_refl eq_refl)).
  reflexivity.
Defined.

Lemma other_exceptions_propagate_witness :
  Generate.evaluate_configuration "blocksworld" "smac/run_1"
    Sample.adapt_broken Sample.generate_blocks (Sample.run_small_planner 4)
    Sample.float_of_literal id Sample.small_cfg 7 Sample.empty_world
  = (Raise ValueError, Sample.empty_world)
  ∧ Generate.evaluate_configuration "blocksworld" "smac/run_1"
      Sample.adapt_blocks Sample.generate_blocks Sample.run_no_planner
      Sample.float_of_literal id Sample.small_cfg 7 Sample.empty_world
    = (Raise (OtherError "PermissionError"), Sample.empty_world).
Proof.
  split.
  - apply (proj1 (other_exceptions_propagate "blocksworld" "smac/run_1"
                    Sample.adapt_broken Sample.generate_blocks
                    (Sample.run_small_planner 4) Sample.float_of_literal id)).
    + reflexivity.
    + discriminate.
  - apply (proj2 (proj2 (other_exceptions_propagate "blocksworld" "smac/run_1"
                    Sample.adapt_blocks Sample.generate_blocks
                    Sample.run_no_planner Sample.float_of_literal id))
             Sample.small_cfg Sample.small_cfg 7 "smac/run_1/plan/1"
             Sample.empty_world Sample.empty_world Sample.empty_world);
      reflexivity.
Defined.

Lemma solved_score_below_penalty_witness :
  ∃ score w',
    Generate.evaluate_configuration "blocksworld" "smac/run_1"
      Sample.adapt_blocks Sample.generate_blocks (Sample.run_small_planner 4)
      Sample.float_of_literal id Sample.small_cfg 7 Sample.logged_world
    = (Ok (PFloat score), w')
    ∧ float_le score (float_neg float_0_1) = true
    ∧ py_gt (PInt 100) (PFloat score) = Some true.
Proof.
  apply (solved_score_below_penalty "blocksworld" "smac/run_1"
           Sample.adapt_blocks Sample.generate_blocks
           (Sample.run_small_planner 4) Sample.float_of_literal id
           Sample.small_cfg Sample.small_cfg 7 "smac/run_1/plan/1"
           Sample.logged_world Sample.logged_world Sample.logged_world
           Sample.planner_log "0.02" (Fin (Qmake 1 50)));
    reflexivity.
Defined.

Lemma evaluation_writes_one_record_witness :
  (∃ runtime,
     json_files Sample.solved_evaluation.2
     = <["smac/run_1/plan/1" // "properties.json"
           := sort_keys (Generate.results_of "blocksworld" Sample.small_cfg 7
                           0 runtime)]>
         (json_files Sample.ready_world))
  ∧ ∀ path,
      path ≠ "smac/run_1/plan/1" // "run.log" →
      path ≠ "smac/run_1/plan/1" // "run.log.xz" →
      texts Sample.solved_evaluation.2 !! path
      = texts Sample.ready_world !! path.
Proof.
  apply (evaluation_writes_one_record "blocksworld" "smac/run_1"
           Sample.adapt_blocks Sample.generate_blocks
           (Sample.run_small_planner 4) Sample.float_of_literal id
           Sample.small_cfg Sample.small_cfg 7 "smac/run_1/plan/1" 0
           Sample.ready_world Sample.ready_world Sample.ready_world
           (PFloat (float_neg float_0_1)) Sample.solved_evaluation.2);
    reflexivity.
Defined.

Lemma solved_trial_is_collected_witness :
  ∃ score w' props,
    Generate.evaluate_configuration "blocksworld" "smac/run_1"
      Sample.adapt_blocks Sample.generate_blocks (Sample.run_small_planner 4)
      Sample.float_of_literal id Sample.small_cfg 7 Sample.ready_world
    = (Ok score, w')
    ∧ run_record "smac/run_1/plan/1" w' ≫= props_of_document = Some props
    ∧ domain props = "blocksworld"
    ∧ parameters props = Sample.small_cfg
    ∧ Collect.seed props = 7
    ∧ planner_exitcode props = 0
    ∧ texts w' !! ("smac/run_1/plan/1" // "problem.pddl")
      = Some "(define (problem bw-4-2))"
    ∧ texts w' !! ("smac/run_1/plan/1" // "domain.pddl")
      = Some "(define (domain blocksworld))"
    ∧ ∀ destdir fs,
        ∃ counts,
          Collect.main_body Sample.digest Sample.join_ints destdir
            empty_tables
            {| properties_json := Some props;
               problem_pddl := Some "(define (problem bw-4-2))";
               domain_pddl := Some "(define (domain blocksworld))" |} fs
          = (Ok (Collect.retained_tables Sample.digest empty_tables props
                   "(define (problem bw-4-2))"
                   (<["planner_runtime" := runtime props]> Sample.small_cfg)
                   counts),
             Collect.retained_fs Sample.join_ints destdir props
               "(define (problem bw-4-2))" "(define (domain blocksworld))"
               fs).
Proof.
  apply (solved_trial_is_collected Sample.digest Sample.join_ints
           "blocksworld" "smac/run_1" Sample.adapt_blocks
           Sample.generate_blocks (Sample.run_small_planner 4)
           Sample.float_of_literal id Sample.small_cfg Sample.small_cfg 7
           "smac/run_1/plan/1" Sample.ready_world Sample.ready_world
           Sample.ready_world Sample.planner_log "0.02" (Fin (Qmake 1 50)));
    try reflexivity.
  intros key value Hv. unfold Sample.small_cfg in Hv.
  apply lookup_insert_Some in Hv as [[_ <-]|[_ Hv]]; [reflexivity|].
  apply lookup_singleton_Some in Hv as [_ <-]. reflexivity.
Defined.

Lemma failed_trial_is_skipped_witness :
  ∃ w' props,
    Generate.evaluate_configuration "blocksworld" "smac/run_1"
      Sample.adapt_blocks Sample.generate_blocks (Sample.run_small_planner 9)
      Sample.float_of_literal id Sample.large_cfg 7 Sample.empty_world
    = (Ok (PInt 100), w')
    ∧ run_record "smac/run_1/plan/1" w' ≫= props_of_document = Some props
    ∧ planner_exitcode props = 1
    ∧ runtime props = PNone
    ∧ ∀ destdir tables collected fs,
        properties_json collected = Some props →
        Collect.main_body Sample.digest Sample.join_ints destdir tables
          collected fs
        = (Ok tables, fs).
Proof.
  apply (failed_trial_is_skipped Sample.digest Sample.join_ints "blocksworld"
           "smac/run_1" Sample.adapt_blocks Sample.generate_blocks
           (Sample.run_small_planner 9) Sample.float_of_literal id
           Sample.large_cfg Sample.large_cfg 7 "smac/run_1/plan/1" 1
           Sample.empty_world Sample.empty_world Sample.empty_world);
    try reflexivity.
  lia.
Defined.

Lemma task_report_counts_distinct_problems_witness :
  ∃ items,
    print_task_count (seen_task_hashes Sample.two_domains_tables)
    = print (newline +:+ "Tasks:")
        +:+ String.concat EmptyString (task_count_line <$> items)
    ∧ NoDup items.*1
    ∧ StronglySorted str_le items.*1
    ∧ (∀ dom_name,
         dom_name ∈ items.*1
         ↔ ∃ digest,
             Collect.hashed_before Sample.digest Sample.two_domains dom_name
               digest)
    ∧ ∀ dom_name digests,
        (dom_name, digests) ∈ items →
        (1 ≤ size digests)%nat
        ∧ ∀ digest,
            digest ∈ digests
            ↔ Collect.hashed_before Sample.digest Sample.two_domains dom_name
                digest.
Proof.
  apply (task_report_counts_distinct_problems Sample.digest Sample.join_ints
           "benchmarks" Sample.two_domains Sample.empty_fs
           Sample.two_domains_tables Sample.after_two_domains.2).
  vm_compute. reflexivity.
Defined.

Lemma runtime_report_lists_buckets_witness :
  ∃ items,
    print_runtimes (seen_runtimes Sample.two_domains_tables)
    = print (newline +:+ "Runtime smaller than:")
        +:+ String.concat EmptyString
              ((λ item : string * list (Z * Z),
                  print (" " +:+ item.1 +:+ ": "
                           +:+ String.concat ", " (bucket_text <$> item.2)))
                 <$> items)
    ∧ NoDup items.*1
    ∧ StronglySorted str_le items.*1
    ∧ (∀ dom_name,
         dom_name ∈ items.*1
         ↔ ∃ digest,
             Collect.hashed_before Sample.digest Sample.two_domains dom_name
               digest)
    ∧ ∀ dom_name buckets,
        (dom_name, buckets) ∈ items →
        NoDup buckets.*1
        ∧ StronglySorted Z.le buckets.*1
        ∧ ∀ bound n, (bound, n) ∈ buckets →
                      bound ∈ RUNTIME_BOUNDS ∧ (1 ≤ n)%Z.
Proof.
  apply (runtime_report_lists_buckets Sample.digest Sample.join_ints
           "benchmarks" Sample.two_domains Sample.empty_fs
           Sample.two_domains_tables Sample.after_two_domains.2).
  vm_compute. reflexivity.
Defined.
